(** * Report-generation workflow engine of azure-reports-app

    A shallow embedding of the client-side workflow code
    (services/reportsService.js, services/api.js, config/api.js,
    pages/Reports.jsx, components/dashboard/EnhancedDashboard.jsx)
    together with the properties of its polling loop, retry policy,
    metrics normalizer and validation gate. *)

From Stdlib Require Import ZArith List Lia Bool Ascii String.
From stdpp Require Import base option strings pretty gmap.
From Equations Require Import Equations.
Import ListNotations.

Local Open Scope string_scope.
Local Open Scope Z_scope.

(** ** JavaScript values

    The payloads handled by the workflow are JSON documents.  Numbers are
    restricted to the integers plus [NaN] (the only facts the code uses
    about a number are whether it is falsy and which number it is);
    a string is a sequence of code units below 256; an object is the list
    of its own properties, looked up from the left; an array is the list
    of its elements. *)
Module Js.

#[warnings="-register-all"]
Inductive JsVal : Type :=
| JUndefined
| JNull
| JBool (b : bool)
| JNum (n : Z)
| JNaN
| JStr (s : string)
| JObj (fields : list (string * JsVal))
| JArr (items : list JsVal).

(** What a [throw] carries.  [ErrorMsg m] is [new Error(m)], with [m] the
    argument before its conversion to a string. *)
Inductive JsError : Type :=
| TypeError
| SyntaxError
| NetworkFailure
| ErrorMsg (message : JsVal).

(** A computation that returns or throws. *)
Inductive Result (A : Type) : Type :=
| Ok (a : A)
| Threw (e : JsError).
Arguments Ok {A} a.
Arguments Threw {A} e.

Definition bind {A B} (r : Result A) (k : A -> Result B) : Result B :=
  match r with
  | Ok a => k a
  | Threw e => Threw e
  end.

(** ToBoolean *)
Definition truthy (v : JsVal) : bool :=
  match v with
  | JUndefined | JNull | JNaN => false
  | JBool b => b
  | JNum n => negb (n =? 0)
  | JStr s => negb (String.eqb s "")
  | JObj _ | JArr _ => true
  end.

(** [a || b] *)
Definition or (a b : JsVal) : JsVal := if truthy a then a else b.

Fixpoint lookup_field (k : string) (fields : list (string * JsVal)) : JsVal :=
  match fields with
  | [] => JUndefined
  | (k', v) :: rest => if String.eqb k k' then v else lookup_field k rest
  end.

Definition has_field (k : string) (fields : list (string * JsVal)) : bool :=
  existsb (fun kv => String.eqb k (fst kv)) fields.

(** [obj[k] = v] on the properties of [obj] *)
Fixpoint set_field (k : string) (v : JsVal) (fields : list (string * JsVal))
  : list (string * JsVal) :=
  match fields with
  | [] => [(k, v)]
  | (k', v') :: rest =>
      if String.eqb k k' then (k, v) :: rest else (k', v') :: set_field k v rest
  end.

(** The properties of an object without the property [k]. *)
Fixpoint remove_field (k : string) (fields : list (string * JsVal))
  : list (string * JsVal) :=
  match fields with
  | [] => []
  | (k', v) :: rest =>
      if String.eqb k k' then remove_field k rest else (k', v) :: remove_field k rest
  end.

(** The indexed properties of an array: the ones a spread copies. *)
Definition array_props (items : list JsVal) : list (string * JsVal) :=
  imap (fun i v => (pretty i, v)) items.

(** [[]] *)
Definition empty_array : JsVal := JArr [].

(** Template-literal conversion of a storage item. *)
Definition interpolate (v : JsVal) : string :=
  match v with
  | JStr s => s
  | JNull => "null"
  | _ => "undefined"
  end.

(** [v.k]: a TypeError on [undefined] and [null], the own property of an
    object, the length or an element of an array, the length of a
    string, [undefined] otherwise. *)
Definition get_prop (v : JsVal) (k : string) : Result JsVal :=
  match v with
  | JUndefined | JNull => Threw TypeError
  | JObj fields => Ok (lookup_field k fields)
  | JArr items =>
      Ok (if String.eqb k "length" then JNum (Z.of_nat (length items))
          else lookup_field k (array_props items))
  | JStr s => Ok (if String.eqb k "length" then JNum (Z.of_nat (String.length s)) else JUndefined)
  | _ => Ok JUndefined
  end.

(** The property [k] of the object a computation returned;
    [undefined] when it threw or returned no object. *)
Definition metric (r : Result JsVal) (k : string) : JsVal :=
  match r with
  | Ok (JObj m) => lookup_field k m
  | _ => JUndefined
  end.

(** [v === 'lit'] *)
Definition is_str (v : JsVal) (lit : string) : bool :=
  match v with
  | JStr s => String.eqb s lit
  | _ => false
  end.

(** [typeof v === 'object'] *)
Definition typeof_object (v : JsVal) : bool :=
  match v with
  | JObj _ | JArr _ | JNull => true
  | _ => false
  end.

(** The properties [{...base, ...obj}] has, [fields] being those of
    [obj]: each property of [obj], in order, is written over [base]
    with the value a lookup gives it. *)
Definition spread (base fields : list (string * JsVal)) : list (string * JsVal) :=
  fold_left (fun acc kv => set_field (fst kv) (lookup_field (fst kv) fields) acc) fields base.

(** The indexed characters a string spreads into. *)
Definition string_props (s : string) : list (string * JsVal) :=
  imap (fun i c => (pretty i, JStr (String c EmptyString))) (list_ascii_of_string s).

(** [{...base, ...v}] for any value: an array and a string give their
    indexed elements (not their [length]); [undefined], [null], booleans
    and numbers add nothing. *)
Definition spread_val (base : list (string * JsVal)) (v : JsVal) : list (string * JsVal) :=
  match v with
  | JObj fields => spread base fields
  | JArr items => spread base (array_props items)
  | JStr s => spread base (string_props s)
  | _ => base
  end.

End Js.
Export Js.

Declare Scope js_scope.
Delimit Scope js_scope with js.
Notation "'let*' x ':=' r 'in' k" := (Js.bind r (fun x => k))
  (at level 10, x name, r at level 100, k at level 200) : js_scope.
Notation "a '.[' k ']'" := (get_prop a k) (at level 1, format "a .[ k ]") : js_scope.
Local Open Scope js_scope.

(** ** The browser environment

    What the workflow code reads and writes outside its own variables:
    the two storages, [window.location.href], the requests handed to
    [fetch], the delays handed to [setTimeout] and the reports handed to
    a status callback.  The backend is an oracle giving the outcome of
    the n-th request. *)
Module Env.

Record Request : Type := mkRequest {
  req_method : string;
  req_url : string;
  req_authorization : option string;
  req_body : option JsVal
}.

(** [json] is what [response.json()] resolves to, [None] when the body
    is not JSON. *)
Record Response : Type := mkResponse {
  status : Z;
  json : option JsVal
}.

Inductive FetchOutcome : Type :=
| NetworkError
| Responded (r : Response).

Definition Backend : Type := nat -> FetchOutcome.

Record World : Type := mkWorld {
  localStorage : gmap string string;
  sessionStorage : gmap string string;
  href : string;
  requests : list Request;
  timers : list Z;
  updates : list JsVal
}.

Definition ok (r : Response) : bool := (200 <=? status r) && (status r <=? 299).

(** [response.json()] *)
Definition read_json (r : Response) : Result JsVal :=
  match json r with
  | Some v => Ok v
  | None => Threw SyntaxError
  end.

(** [storage.getItem(key)] *)
Definition getItem (storage : gmap string string) (key : string) : JsVal :=
  match storage !! key with
  | Some v => JStr v
  | None => JNull
  end.

Definition set_localStorage (f : gmap string string -> gmap string string) (w : World) : World :=
  mkWorld (f (localStorage w)) (sessionStorage w) (href w) (requests w) (timers w) (updates w).

Definition set_sessionStorage (f : gmap string string -> gmap string string) (w : World) : World :=
  mkWorld (localStorage w) (f (sessionStorage w)) (href w) (requests w) (timers w) (updates w).

Definition set_href (h : string) (w : World) : World :=
  mkWorld (localStorage w) (sessionStorage w) h (requests w) (timers w) (updates w).

(** [fetch(url, ...)]: the request is recorded and the backend answers. *)
Definition fetch (backend : Backend) (rq : Request) (w : World) : FetchOutcome * World :=
  (backend (length (requests w)),
   mkWorld (localStorage w) (sessionStorage w) (href w) (requests w ++ [rq])%list (timers w) (updates w)).

(** [setTimeout(f, delay)]: the continuation is run by the caller of
    this function; the delay is recorded. *)
Definition setTimeout (delay : Z) (w : World) : World :=
  mkWorld (localStorage w) (sessionStorage w) (href w) (requests w) (timers w ++ [delay])%list (updates w).

(** A status callback that records its argument. *)
Definition notify (report : JsVal) (w : World) : World :=
  mkWorld (localStorage w) (sessionStorage w) (href w) (requests w) (timers w) (updates w ++ [report])%list.

(** How a promise settles. *)
Inductive Settled : Type :=
| Resolved (v : JsVal)
| Rejected (e : JsError).

End Env.
Export Env.

(** ** services/reportsService.js *)
Module ReportsService.

(** [extractDashboardMetrics(analysisData, reportType)] *)
Definition extractDashboardMetrics (analysisData reportType : JsVal) : Result JsVal :=
  let* bm := analysisData.["basic_metrics"] in
  let basic := or bm (JObj []) in
  if is_str reportType "security" then
    let* a := basic.["total_security_actions"] in
    let* b := basic.["high_impact_actions"] in
    let* c := analysisData.["security_score"] in
    let* d := basic.["estimated_working_hours"] in
    let* e := basic.["risk_level"] in
    Ok (JObj [ ("total_actions", or a (JNum 0));
               ("critical_issues", or b (JNum 0));
               ("security_score", or c (JNum 0));
               ("working_hours", or d (JNum 0));
               ("risk_level", or e (JStr "Unknown")) ])
  else if is_str reportType "performance" then
    let* a := basic.["total_performance_actions"] in
    let* b := basic.["high_impact_optimizations"] in
    let* c := analysisData.["performance_score"] in
    let* d := basic.["estimated_performance_improvement"] in
    let* e := basic.["estimated_working_hours"] in
    Ok (JObj [ ("total_actions", or a (JNum 0));
               ("critical_optimizations", or b (JNum 0));
               ("performance_score", or c (JNum 100));
               ("optimization_potential", or d (JNum 0));
               ("working_hours", or e (JNum 0)) ])
  else if is_str reportType "cost" then
    let* a := basic.["total_cost_actions"] in
    let* b := basic.["estimated_monthly_savings"] in
    let* c := basic.["estimated_annual_savings"] in
    let* d := basic.["estimated_working_hours"] in
    let* e := analysisData.["optimization_score"] in
    Ok (JObj [ ("total_actions", or a (JNum 0));
               ("monthly_savings", or b (JNum 0));
               ("annual_savings", or c (JNum 0));
               ("working_hours", or d (JNum 0));
               ("optimization_score", or e (JNum 100)) ])
  else
    let* a := basic.["total_actions"] in
    let* b := basic.["estimated_working_hours"] in
    Ok (JObj [ ("total_actions", or a (JNum 0));
               ("working_hours", or b (JNum 0)) ]).


Definition title_error : string := "El título debe tener al menos 3 caracteres".
Definition type_error : string := "Tipo de reporte inválido".
Definition file_error : string := "Debe seleccionar un archivo CSV".

Definition report_types : list string :=
  ["comprehensive"; "security"; "performance"; "cost"].

(** White space and line terminators of [String.prototype.trim] among
    the code units below 256. *)
Definition is_whitespace (c : ascii) : bool :=
  let n := nat_of_ascii c in
  ((n =? 9) || (n =? 10) || (n =? 11) || (n =? 12) || (n =? 13) || (n =? 32) || (n =? 160))%nat.

Fixpoint trim_start (s : string) : string :=
  match s with
  | EmptyString => EmptyString
  | String c rest => if is_whitespace c then trim_start rest else s
  end.

Definition trim (s : string) : string :=
  String.rev (trim_start (String.rev (trim_start s))).

(** [title.trim().length < 3]: calling [trim] on anything but a string
    is a TypeError. *)
Definition trimmed_shorter_than_3 (title : JsVal) : Result bool :=
  match title with
  | JStr s => Ok (String.length (trim s) <? 3)%nat
  | _ => Threw TypeError
  end.

(** [array.includes(v)] for an array of strings *)
Definition includes (l : list string) (v : JsVal) : bool :=
  existsb (is_str v) l.

Record Validation : Type := mkValidation {
  isValid : bool;
  errors : list string
}.

(** [validateReportConfig(config)] *)
Definition validateReportConfig (config : JsVal) : Result Validation :=
  let errors : list string := [] in
  let* title := config.["title"] in
  let* short := (if negb (truthy title) then Ok true else trimmed_shorter_than_3 title) in
  let errors := if short then (errors ++ [title_error])%list else errors in
  let* type := config.["type"] in
  let errors :=
    if negb (truthy type) || negb (includes report_types type)
    then (errors ++ [type_error])%list else errors in
  let* csvFileId := config.["csvFileId"] in
  let errors := if negb (truthy csvFileId) then (errors ++ [file_error])%list else errors in
  Ok (mkValidation (length errors =? 0)%nat errors).

(** [getHeaders()]: the Authorization header, when a token is stored. *)
Definition getHeaders (w : World) : option string :=
  match getItem (localStorage w) "token" with
  | JStr t => if truthy (JStr t) then Some ("Bearer " +:+ t) else None
  | _ => None
  end.

(** [handleResponse(response)] *)
Definition handleResponse (response : Response) : Result JsVal :=
  if negb (ok response) then
    let error := match json response with Some v => v | None => JObj [] end in
    let* message := error.["message"] in
    Threw (ErrorMsg (or message (JStr ("HTTP error! status: " +:+ pretty (status response)))))
  else read_json response.

Section Requests.

Variable baseURL : string.
Variable backend : Backend.
(** [new URLSearchParams(init).toString()] *)
Variable toQueryString : JsVal -> string.

(** The request and the [handleResponse] that most methods consist of. *)
Definition request_json (method url : string) (body : option JsVal) (w : World)
  : Result JsVal * World :=
  match fetch backend (mkRequest method url (getHeaders w) body) w with
  | (NetworkError, w') => (Threw NetworkFailure, w')
  | (Responded response, w') => (handleResponse response, w')
  end.

(** The object that [getReports] hands to [URLSearchParams]. *)
Definition getReportsQuery (params : JsVal) : Result JsVal :=
  let params := match params with JUndefined => JObj [] | _ => params end in
  let* page := params.["page"] in
  let* pageSize := params.["pageSize"] in
  let* filters := params.["filters"] in
  Ok (JObj (spread_val [ ("page", or page (JNum 1));
                         ("page_size", or pageSize (JNum 20)) ] filters)).

(** [getReports(params)] *)
Definition getReports (params : JsVal) (w : World) : Result JsVal * World :=
  match getReportsQuery params with
  | Threw e => (Threw e, w)
  | Ok query =>
      request_json "GET" (baseURL +:+ "/reports/?" +:+ toQueryString query) None w
  end.

(** The object that [createReport] hands to [JSON.stringify]. *)
Definition createReportBody (reportData : JsVal) : Result JsVal :=
  let* title := reportData.["title"] in
  let* description := reportData.["description"] in
  let* type := reportData.["type"] in
  let* csvFileId := reportData.["csvFileId"] in
  let* includeGraphics := reportData.["includeGraphics"] in
  let* includeDetailedTables := reportData.["includeDetailedTables"] in
  let* includeRecommendations := reportData.["includeRecommendations"] in
  Ok (JObj [ ("title", title);
             ("description", description);
             ("report_type", type);
             ("csv_file", csvFileId);
             ("configuration",
              JObj [ ("include_graphics", includeGraphics);
                     ("include_detailed_tables", includeDetailedTables);
                     ("include_recommendations", includeRecommendations) ]) ]).

(** [createReport(reportData)] *)
Definition createReport (reportData : JsVal) (w : World) : Result JsVal * World :=
  match createReportBody reportData with
  | Threw e => (Threw e, w)
  | Ok body => request_json "POST" (baseURL +:+ "/reports/") (Some body) w
  end.

(** [getReportStatus(reportId)] *)
Definition getReportStatus (reportId : string) (w : World) : Result JsVal * World :=
  request_json "GET" (baseURL +:+ "/reports/" +:+ reportId +:+ "/status/") None w.

(** [getReportPDFUrl(reportId)] *)
Definition getReportPDFUrl (reportId : string) : string :=
  baseURL +:+ "/reports/" +:+ reportId +:+ "/pdf/".

(** [deleteReport(reportId)] *)
Definition deleteReport (reportId : string) (w : World) : Result JsVal * World :=
  match fetch backend
          (mkRequest "DELETE" (baseURL +:+ "/reports/" +:+ reportId +:+ "/") (getHeaders w) None)
          w with
  | (NetworkError, w') => (Threw NetworkFailure, w')
  | (Responded response, w') =>
      if negb (ok response)
      then (Threw (ErrorMsg (JStr ("Error deleting report: " +:+ pretty (status response)))), w')
      else (Ok (JBool true), w')
  end.

(** [getDashboardStats()] *)
Definition getDashboardStats (w : World) : Result JsVal * World :=
  request_json "GET" (baseURL +:+ "/analytics/stats/") None w.

End Requests.

(** How the request of an upload ends: the [load], [error] or
    [timeout] event of the XMLHttpRequest.  [responseText] is the body
    parsed by [JSON.parse], [None] when it does not parse. *)
Inductive XhrEvent : Type :=
| XhrLoad (status : Z) (responseText : option JsVal)
| XhrError
| XhrTimeout.

Definition upload_failed (status : Z) : JsError :=
  ErrorMsg (JStr ("Upload failed with status " +:+ pretty status)).

(** The listeners that [uploadCSVFile] puts on the events that end the
    request.  (The progress listener reports a rounded floating-point
    percentage and is not part of this model.) *)
Definition uploadCSVFile_settles (ev : XhrEvent) : Settled :=
  match ev with
  | XhrLoad status responseText =>
      if (200 <=? status) && (status <? 300) then
        match responseText with
        | Some response => Resolved response
        | None => Rejected (ErrorMsg (JStr "Invalid response format"))
        end
      else
        match responseText with
        | Some error =>
            match error.["message"] with
            | Ok message =>
                Rejected (ErrorMsg (or message
                            (JStr ("Upload failed with status " +:+ pretty status))))
            | Threw _ => Rejected (upload_failed status)
            end
        | None => Rejected (upload_failed status)
        end
  | XhrError => Rejected (ErrorMsg (JStr "Network error during upload"))
  | XhrTimeout => Rejected (ErrorMsg (JStr "Upload timeout"))
  end.

(** [formatAnalysisData(analysisData, reportType)]; [now] is
    [new Date().toISOString()]. *)
Definition formatAnalysisData (now : string) (analysisData reportType : JsVal)
  : Result JsVal :=
  if negb (truthy analysisData) || negb (typeof_object analysisData) then Ok JNull
  else
    let formatted :=
      spread_val [ ("reportType", reportType); ("generatedAt", JStr now) ] analysisData in
    if negb (truthy (lookup_field "dashboard_metrics" formatted)) then
      let* metrics := extractDashboardMetrics analysisData reportType in
      Ok (JObj (set_field "dashboard_metrics" metrics formatted))
    else Ok (JObj formatted).

Section Polling.

Variable baseURL : string.
Variable backend : Backend.

(** [getReport(reportId)] *)
Definition getReport (reportId : string) (w : World) : Result JsVal * World :=
  let rq := mkRequest "GET" (baseURL +:+ "/reports/" +:+ reportId +:+ "/") (getHeaders w) None in
  match fetch backend rq w with
  | (NetworkError, w') => (Threw NetworkFailure, w')
  | (Responded response, w') => (handleResponse response, w')
  end.

Variable reportId : string.
(** [onStatusUpdate] is either [null] or the recording callback. *)
Variable onStatusUpdate : bool.
Variable maxAttempts : nat.

Definition timeout_error : JsError :=
  ErrorMsg (JStr "Polling timeout - report generation took too long").

(** [new Error(report.error_message || 'Report generation failed')] *)
Definition generation_failed (report : JsVal) : JsError :=
  match report.["error_message"] with
  | Ok m => ErrorMsg (or m (JStr "Report generation failed"))
  | Threw e => e
  end.

Definition call_onStatusUpdate (report : JsVal) (w : World) : World :=
  if onStatusUpdate then notify report w else w.

(** The closure [checkStatus] of [pollReportStatus]; [attempts] is the
    variable it shares with its later runs. *)
Equations? checkStatus (attempts : nat) (w : World) : Settled * World
  by wf (maxAttempts - attempts)%nat lt :=
checkStatus attempts w with getReport reportId w => {
  | (Threw e, w1) := (Rejected e, w1);
  | (Ok report, w1) with report.["status"] => {
    | Threw e := (Rejected e, call_onStatusUpdate report w1);
    | Ok st with is_str st "completed" => {
      | true := (Resolved report, call_onStatusUpdate report w1);
      | false with is_str st "failed" => {
        | true := (Rejected (generation_failed report), call_onStatusUpdate report w1);
        | false with le_lt_dec maxAttempts attempts => {
          | left _ := (Rejected timeout_error, call_onStatusUpdate report w1);
          | right _ :=
              checkStatus (S attempts) (setTimeout 5000 (call_onStatusUpdate report w1)) } } } } }.
Proof. lia. Qed.

(** What one poll that got a report leaves behind: the request and the
    call of the callback. *)
Definition polled (w : World) : World :=
  let (out, w1) := getReport reportId w in
  match out with
  | Ok report => call_onStatusUpdate report w1
  | Threw _ => w1
  end.

(** [pollReportStatus(reportId, onStatusUpdate, maxAttempts)] *)
Definition pollReportStatus (w : World) : Settled * World :=
  checkStatus 0%nat (setTimeout 3000 w).

End Polling.

(** The members of the [reportsService] object: its own [baseURL], the
    methods of the class, and what every object inherits. *)
Definition members : list string :=
  [ "baseURL"; "constructor"; "getHeaders"; "handleResponse"; "getReports"; "getReport";
    "createReport"; "getReportStatus"; "getReportHTML"; "getReportPDFUrl"; "deleteReport";
    "validateCSVForSpecializedAnalysis"; "getAnalysisMetrics"; "uploadCSVFile";
    "getUserCSVFiles"; "getCSVFileAnalysis"; "getDashboardStats"; "getRecentActivity";
    "pollReportStatus"; "getReportTypeConfig"; "validateReportConfig"; "formatAnalysisData";
    "extractDashboardMetrics";
    "hasOwnProperty"; "isPrototypeOf"; "propertyIsEnumerable"; "toLocaleString"; "toString";
    "valueOf"; "__proto__"; "__defineGetter__"; "__defineSetter__"; "__lookupGetter__";
    "__lookupSetter__" ].

(** [reportsService[name](...)]: [call] is the call of the member when
    there is one; what is not a member is [undefined], and calling it a
    TypeError. *)
Definition call_member {A : Type} (name : string) (call : Result A) : Result A :=
  if existsb (String.eqb name) members then call else Threw TypeError.

End ReportsService.

(** ** config/api.js *)
Module ApiConfig.

Definition TIMEOUT : Z := 30000.
Definition UPLOAD_TIMEOUT : Z := 300000.
Definition RETRY_ATTEMPTS : nat := 3.
Definition RETRY_DELAY : Z := 1000.
Definition RETRY_EXPONENTIAL : bool := true.

Definition session_expired : JsError := ErrorMsg (JStr "Sesión expirada").
Definition session_expired_login : JsError :=
  ErrorMsg (JStr "Sesión expirada. Por favor, inicia sesión nuevamente.").

(** The four [removeItem] calls and the assignment to
    [window.location.href] of the 401 branches. *)
Definition clear_session (w : World) : World :=
  let w := set_localStorage (delete "access_token") w in
  let w := set_sessionStorage (delete "access_token") w in
  let w := set_localStorage (delete "refresh_token") w in
  let w := set_sessionStorage (delete "refresh_token") w in
  set_href "/" w.

(** [token && { Authorization: `Bearer ${token}` }] *)
Definition bearer (token : JsVal) : option string :=
  match token with
  | JStr t => if truthy token then Some ("Bearer " +:+ t) else None
  | _ => None
  end.

(** [getAuthHeaders()] *)
Definition getAuthHeaders (w : World) : list (string * JsVal) :=
  let token := or (getItem (localStorage w) "access_token")
                  (getItem (sessionStorage w) "access_token") in
  spread_val [ ("Content-Type", JStr "application/json"); ("Accept", JStr "application/json") ]
    (if truthy token
     then JObj [("Authorization", JStr ("Bearer " +:+ interpolate token))]
     else token).

Section Transport.

Variable BASE_URL : string.
Variable backend : Backend.

(** [fetchWithAuth(url, options)], with the method and body of
    [options]. *)
Definition fetchWithAuth (url method : string) (body : option JsVal) (w : World)
  : Result Response * World :=
  let token := or (getItem (localStorage w) "access_token")
                  (getItem (sessionStorage w) "access_token") in
  let fullUrl := if String.prefix "http" url then url else BASE_URL +:+ url in
  match fetch backend (mkRequest method fullUrl (bearer token) body) w with
  | (NetworkError, w1) => (Threw NetworkFailure, w1)
  | (Responded response, w1) =>
      if status response =? 401
      then (Threw session_expired, clear_session w1)
      else (Ok response, w1)
  end.

(** [handleApiResponse(response)] *)
Definition handleApiResponse (response : Response) (w : World) : Result JsVal * World :=
  if negb (ok response) then
    let error := match json response with
                 | Some v => v
                 | None => JObj [("detail", JStr "Error de conexión con el servidor")]
                 end in
    let s := status response in
    if s =? 401 then (Threw session_expired_login, clear_session w)
    else if s =? 403 then
      (Threw (ErrorMsg (JStr "No tienes permisos para realizar esta acción.")), w)
    else if s =? 404 then (Threw (ErrorMsg (JStr "Recurso no encontrado.")), w)
    else if s =? 413 then
      (Threw (ErrorMsg (JStr "El archivo es demasiado grande. Máximo 50MB.")), w)
    else if s =? 422 then
      (Threw (ErrorMsg (JStr "Datos inválidos. Verifica la información enviada.")), w)
    else if s =? 429 then
      (Threw (ErrorMsg (JStr "Demasiadas solicitudes. Intenta nuevamente en unos minutos.")), w)
    else if s =? 500 then
      (Threw (ErrorMsg (JStr "Error interno del servidor. Intenta nuevamente.")), w)
    else
      (let* detail := error.["detail"] in
       let* message := error.["message"] in
       Threw (ErrorMsg (or (or detail message) (JStr "Error desconocido"))), w)
  else (read_json response, w).

(** The [try] block of [fetchWithRetry]. *)
Definition attempt (url method : string) (body : option JsVal) (w : World)
  : Result JsVal * World :=
  match fetch backend (mkRequest method url None body) w with
  | (NetworkError, w1) => (Threw NetworkFailure, w1)
  | (Responded response, w1) => handleApiResponse response w1
  end.

Definition retry_delay (retryCount : nat) : Z :=
  if RETRY_EXPONENTIAL then RETRY_DELAY * 2 ^ Z.of_nat retryCount else RETRY_DELAY.

(** [fetchWithRetry(url, options, retryCount)] *)
Equations? fetchWithRetry (url method : string) (body : option JsVal)
  (retryCount : nat) (w : World) : Result JsVal * World
  by wf (RETRY_ATTEMPTS - retryCount)%nat lt :=
fetchWithRetry url method body retryCount w with attempt url method body w => {
  | (Ok v, w1) := (Ok v, w1);
  | (Threw error, w1) with le_lt_dec RETRY_ATTEMPTS retryCount => {
    | right _ :=
        fetchWithRetry url method body (S retryCount) (setTimeout (retry_delay retryCount) w1);
    | left _ := (Threw error, w1) } }.
Proof. unfold RETRY_ATTEMPTS in *. lia. Qed.

End Transport.

End ApiConfig.

(** ** services/api.js *)
Module ApiService.

Section Api.

Variable API_BASE_URL : string.
Variable backend : Backend.

Definition getAuthToken (w : World) : JsVal :=
  or (getItem (localStorage w) "access_token") (getItem (sessionStorage w) "access_token").

Definition token_expired : JsError := ErrorMsg (JStr "Token de autenticación expirado").

(** [fetchWithAuth(url, options)] *)
Definition fetchWithAuth (url method : string) (body : option JsVal) (w : World)
  : Result Response * World :=
  let token := getAuthToken w in
  match fetch backend (mkRequest method url (ApiConfig.bearer token) body) w with
  | (NetworkError, w1) => (Threw NetworkFailure, w1)
  | (Responded response, w1) =>
      if status response =? 401 then (Threw token_expired, w1) else (Ok response, w1)
  end.

(** The object that [createReport] hands to [JSON.stringify]. *)
Definition createReportBody (reportData : JsVal) : Result JsVal :=
  let* title := reportData.["title"] in
  let* description := reportData.["description"] in
  let* type := reportData.["type"] in
  let* report_type := reportData.["report_type"] in
  let* csvFileId := reportData.["csvFileId"] in
  let* csv_file := reportData.["csv_file"] in
  let* configuration := reportData.["configuration"] in
  let* includeGraphics := reportData.["includeGraphics"] in
  let* includeDetailedTables := reportData.["includeDetailedTables"] in
  let* includeRecommendations := reportData.["includeRecommendations"] in
  Ok (JObj [ ("title", title);
             ("description", or description (JStr ""));
             ("report_type", or type report_type);
             ("csv_file", or csvFileId csv_file);
             ("configuration",
              or configuration
                 (JObj [ ("include_graphics", or includeGraphics (JBool true));
                         ("include_detailed_tables", or includeDetailedTables (JBool true));
                         ("include_recommendations", or includeRecommendations (JBool true)) ])) ]).

(** [apiService.createReport(reportData)] *)
Definition createReport (reportData : JsVal) (w : World) : Result JsVal * World :=
  match createReportBody reportData with
  | Threw e => (Threw e, w)
  | Ok body =>
      match fetchWithAuth (API_BASE_URL +:+ "/reports/") "POST" (Some body) w with
      | (Threw e, w1) => (Threw e, w1)
      | (Ok response, w1) =>
          if negb (ok response) then
            let error := match json response with Some v => v | None => JObj [] end in
            (let* err := error.["error"] in
             let* detail := error.["detail"] in
             Threw (ErrorMsg (or (or err detail)
                       (JStr ("HTTP " +:+ pretty (status response) +:+ ": Error creando reporte")))),
             w1)
          else (read_json response, w1)
      end
  end.

(** The request, the check of [response.ok] and the [response.json()]
    that the read methods consist of; [what] ends the error message. *)
Definition fetch_or_fail (url what : string) (w : World) : Result JsVal * World :=
  match fetchWithAuth url "GET" None w with
  | (Threw e, w1) => (Threw e, w1)
  | (Ok response, w1) =>
      if negb (ok response)
      then (Threw (ErrorMsg (JStr ("HTTP " +:+ pretty (status response) +:+ ": " +:+ what))), w1)
      else (read_json response, w1)
  end.

(** [getReports(params)]; [queryString] is
    [new URLSearchParams(params).toString()]. *)
Definition getReports (queryString : string) (w : World) : Result JsVal * World :=
  let url := API_BASE_URL +:+ "/reports/"
             +:+ (if truthy (JStr queryString) then "?" +:+ queryString else "") in
  match fetch_or_fail url "Error obteniendo reportes" w with
  | (Threw e, w1) => (Threw e, w1)
  | (Ok data, w1) =>
      ((let* results := data.["results"] in
        Ok (or (or results data) empty_array)), w1)
  end.

(** [getReport(reportId)] *)
Definition getReport (reportId : string) (w : World) : Result JsVal * World :=
  fetch_or_fail (API_BASE_URL +:+ "/reports/" +:+ reportId +:+ "/")
    "Error obteniendo reporte" w.

(** [getReportStatus(reportId)] *)
Definition getReportStatus (reportId : string) (w : World) : Result JsVal * World :=
  fetch_or_fail (API_BASE_URL +:+ "/reports/" +:+ reportId +:+ "/status/")
    "Error obteniendo estado del reporte" w.

(** [getDashboardStats()] *)
Definition getDashboardStats (w : World) : Result JsVal * World :=
  fetch_or_fail (API_BASE_URL +:+ "/dashboard/stats/") "Error obteniendo estadísticas" w.

End Api.

End ApiService.

(** ** components/dashboard/EnhancedDashboard.jsx *)
Module Dashboard.

Section SpecializedStats.

(** What a method [getAnalyticsForType] of the service would return
    for each report type, if the service had one. *)
Variable analytics : string -> Result JsVal.

(** [reportsService.getAnalyticsForType(type)], on the service object
    that the component imports from services/reportsService.js. *)
Definition getAnalyticsForType (type : string) : Result JsVal :=
  ReportsService.call_member "getAnalyticsForType" (analytics type).

(** One turn of the [for] loop: the [try] and its [catch]. *)
Definition load_one (stats : list (string * JsVal)) (type : string)
  : list (string * JsVal) :=
  match getAnalyticsForType type with
  | Ok typeStats => set_field type typeStats stats
  | Threw _ => set_field type JNull stats
  end.

(** [loadSpecializedStats()]: the object handed to
    [setSpecializedStats]. *)
Definition loadSpecializedStats : JsVal :=
  let types := ["security"; "performance"; "cost"] in
  JObj (fold_left load_one types []).

End SpecializedStats.

End Dashboard.

(** ** pages/Reports.jsx *)
Module ReportsPage.

(** The component state that the polling closure writes. *)
Record Page : Type := mkPage {
  isGenerating : bool;
  generationProgress : Z;
  generatedReport : JsVal;
  progressInterval : bool;
  reports : JsVal
}.

Definition maxAttempts : nat := 60.

Section Polling.

Variable backend : Backend.

Definition authorization (w : World) : option string :=
  Some ("Bearer " +:+ interpolate (getItem (localStorage w) "token")).

(** [fetchReports()] *)
Definition fetchReports (pg : Page) (w : World) : Page * World :=
  match fetch backend (mkRequest "GET" "/api/reports/" (authorization w) None) w with
  | (NetworkError, w1) => (pg, w1)
  | (Responded response, w1) =>
      if ok response then
        match (let* data := read_json response in data.["results"]) with
        | Ok results =>
            (mkPage (isGenerating pg) (generationProgress pg) (generatedReport pg)
                    (progressInterval pg) (or results empty_array), w1)
        | Threw _ => (pg, w1)
        end
      else (pg, w1)
  end.

(** The world after the request of one poll. *)
Definition asked (reportId : string) (w : World) : World :=
  snd (fetch backend
         (mkRequest "GET" ("/api/reports/" +:+ reportId +:+ "/") (authorization w) None) w).

(** [clearInterval(progressInterval); setIsGenerating(false)] *)
Definition stop_generating (pg : Page) : Page :=
  mkPage false (generationProgress pg) (generatedReport pg) false (reports pg).

Definition completed (report : JsVal) (pg : Page) : Page :=
  mkPage false 100 report false (reports pg).

(** The closure [checkStatus] of the page's [pollReportStatus]. *)
Equations? checkStatus (reportId : string) (attempts : nat) (pg : Page) (w : World)
  : Page * World by wf (maxAttempts - attempts)%nat lt :=
checkStatus reportId attempts pg w
  with fetch backend
         (mkRequest "GET" ("/api/reports/" +:+ reportId +:+ "/") (authorization w) None) w => {
  | (NetworkError, w1) := (stop_generating pg, w1);
  | (Responded response, w1) with ok response => {
    | false := (pg, w1);
    | true with read_json response => {
      | Threw _ := (stop_generating pg, w1);
      | Ok report with report.["status"] => {
        | Threw _ := (stop_generating pg, w1);
        | Ok st with is_str st "completed" => {
          | true := fetchReports (completed report pg) w1;
          | false with is_str st "failed" => {
            | true := (stop_generating pg, w1);
            | false with le_lt_dec maxAttempts attempts => {
              | right _ := checkStatus reportId (S attempts) pg (setTimeout 5000 w1);
              | left _ := (stop_generating pg, w1) } } } } } } }.
Proof. unfold maxAttempts in *. lia. Qed.

(** [pollReportStatus(reportId, progressInterval)] *)
Definition pollReportStatus (reportId : string) (pg : Page) (w : World) : Page * World :=
  checkStatus reportId 0%nat pg (setTimeout 3000 w).

End Polling.

End ReportsPage.

(** ** Vocabulary of the properties *)

(** A title as the data model has it: a string, or missing (falsy). *)
Definition title_typed (title : JsVal) : Prop :=
  (exists s, title = JStr s) \/ truthy title = false.

(** The title rule is violated: no title, or fewer than three characters
    once trimmed. *)
Definition title_too_short (title : JsVal) : Prop :=
  truthy title = false
  \/ exists s, title = JStr s /\ (String.length (ReportsService.trim s) < 3)%nat.

(** The error a rule contributes. *)
Definition when (b : bool) (e : string) : list string := if b then [e] else [].

(** The backend answers with a report whose status is neither
    'completed' nor 'failed'. *)
Definition pending (o : FetchOutcome) : bool :=
  match o with
  | Responded r =>
      ok r &&
      match json r with
      | Some report =>
          match report.["status"] with
          | Ok st => negb (is_str st "completed") && negb (is_str st "failed")
          | Threw _ => false
          end
      | None => false
      end
  | NetworkError => false
  end.

(** The backend answers with a report whose status is [st]. *)
Definition has_status (st : string) (o : FetchOutcome) : bool :=
  match o with
  | Responded r =>
      ok r &&
      match json r with
      | Some report =>
          match report.["status"] with
          | Ok v => is_str v st
          | Threw _ => false
          end
      | None => false
      end
  | NetworkError => false
  end.

(** The report in an answer. *)
Definition report_of (o : FetchOutcome) : JsVal :=
  match o with
  | Responded r => match json r with Some report => report | None => JUndefined end
  | NetworkError => JUndefined
  end.

(** The answers to the requests [from], ..., [from + n - 1]. *)
Definition reports_of (backend : Backend) (from n : nat) : list JsVal :=
  map (fun k => report_of (backend k)) (seq from n).

(** A world in which nothing is stored and nothing has happened, on
    the reports page. *)
Definition empty_world : World := mkWorld ∅ ∅ "/reports" [] [] [].

(** A backend on which the report has the status [st] at every poll. *)
Definition always (st : string) : Backend :=
  fun _ => Responded (mkResponse 200 (Some (JObj [("id", JNum 7); ("status", JStr st)]))).

(** A backend that answers every request with the status code [code]
    and no JSON body. *)
Definition always_code (code : Z) : Backend :=
  fun _ => Responded (mkResponse code None).

(** The attempt on this answer fails: no answer, a status outside 2xx,
    or a body that is not JSON. *)
Definition failing (o : FetchOutcome) : bool :=
  match o with
  | NetworkError => true
  | Responded r => negb (ok r) || match json r with Some _ => false | None => true end
  end.

(** The world after [n] polls of the service's loop that found the
    report pending, each followed by its five-second timer. *)
Definition after_pending_polls (baseURL : string) (backend : Backend) (reportId : string)
  (onStatusUpdate : bool) (n : nat) (w : World) : World :=
  Nat.iter n (fun w => setTimeout 5000
                         (ReportsService.polled baseURL backend reportId onStatusUpdate w)) w.

(** What [getReport] throws on this answer, if it throws. *)
Definition poll_error (o : FetchOutcome) : option JsError :=
  match o with
  | NetworkError => Some NetworkFailure
  | Responded r =>
      match ReportsService.handleResponse r with
      | Threw e => Some e
      | Ok _ => None
      end
  end.

(** [w1] is [w] after one request and at most one call of the status
    callback: nothing stored, no navigation, no timer. *)
Definition one_poll (w w1 : World) : Prop :=
  length (requests w1) = S (length (requests w))
  /\ timers w1 = timers w
  /\ (length (updates w) <= length (updates w1) <= S (length (updates w)))%nat
  /\ localStorage w1 = localStorage w
  /\ sessionStorage w1 = sessionStorage w
  /\ href w1 = href w.

(** The poll on which the service's loop stops: the request is sent
    and, when a report came back, the callback is called with it. *)
Definition last_poll (baseURL : string) (backend : Backend) (reportId : string)
  (onStatusUpdate : bool) (report : option JsVal) (w : World) : World :=
  let w1 := snd (fetch backend
                   (mkRequest "GET" (baseURL +:+ "/reports/" +:+ reportId +:+ "/")
                      (ReportsService.getHeaders w) None) w) in
  match report with
  | Some report => ReportsService.call_onStatusUpdate onStatusUpdate report w1
  | None => w1
  end.

(** An answer with the report [{id: 7, status: st}]. *)
Definition report_with (st : string) : FetchOutcome :=
  Responded (mkResponse 200 (Some (JObj [("id", JNum 7); ("status", JStr st)]))).

(** A backend that gives the answers of [script] in turn, and no answer
    after them. *)
Definition scripted (script : list FetchOutcome) : Backend :=
  fun k => nth k script NetworkError.

(** The JSON body of an answer. *)
Definition json_of (o : FetchOutcome) : option JsVal :=
  match o with
  | Responded r => json r
  | NetworkError => None
  end.

(** A world in which the user is logged in: an access token in
    localStorage, another in sessionStorage, and the token of
    reportsService.js. *)
Definition logged_in : World :=
  mkWorld (<["access_token" := "local-abc"]> (<["token" := "svc-xyz"]> ∅))
          (<["access_token" := "session-def"]> ∅) "/app/reports" [] [] [].

(** A backend that answers every request with the status code [code]
    and the JSON body [body]. *)
Definition always_code_body (code : Z) (body : JsVal) : Backend :=
  fun _ => Responded (mkResponse code (Some body)).

(** What one attempt of [fetchWithRetry] returns or throws on this
    answer. *)
Definition attempt_result (o : FetchOutcome) : Result JsVal :=
  match o with
  | NetworkError => Threw NetworkFailure
  | Responded r => fst (ApiConfig.handleApiResponse r empty_world)
  end.

(** A JSON value that is a boolean, a number or a string. *)
Definition is_primitive (v : JsVal) : bool :=
  match v with
  | JBool _ | JNum _ | JNaN | JStr _ => true
  | _ => false
  end.

(** An inclusion flag as the caller's state has it: a boolean, or not
    given. *)
Definition boolean_or_absent (v : JsVal) : bool :=
  match v with
  | JBool _ | JUndefined => true
  | _ => false
  end.

Definition all_flags_true : JsVal :=
  JObj [ ("include_graphics", JBool true);
         ("include_detailed_tables", JBool true);
         ("include_recommendations", JBool true) ].

(** * Properties *)

(** ** JavaScript values *)
Section JsFacts.

Lemma lookup_absent (k : string) (fields : list (string * JsVal)) :
  has_field k fields = false -> lookup_field k fields = JUndefined.
Proof.
  induction fields as [|[k' v] rest IH]; simpl; [reflexivity|].
  destruct (String.eqb k k'); simpl; [discriminate|exact IH].
Qed.

Lemma lookup_remove_same (k : string) (fields : list (string * JsVal)) :
  lookup_field k (remove_field k fields) = JUndefined.
Proof.
  induction fields as [|[k' v] rest IH]; simpl; [reflexivity|].
  destruct (String.eqb k k') eqn:E; simpl; [exact IH|].
  rewrite E. exact IH.
Qed.

Lemma lookup_remove_other (k k' : string) (fields : list (string * JsVal)) :
  String.eqb k k' = false ->
  lookup_field k (remove_field k' fields) = lookup_field k fields.
Proof.
  intros Hne. induction fields as [|[k0 v] rest IH]; simpl; [reflexivity|].
  destruct (String.eqb k' k0) eqn:E; simpl.
  - apply String.eqb_eq in E. subst k0. rewrite Hne. exact IH.
  - rewrite IH. reflexivity.
Qed.

Lemma truthy_get_prop (v : JsVal) (k : string) :
  truthy v = true -> exists x, get_prop v k = Ok x.
Proof.
  destruct v; simpl; intros H; try discriminate; eauto.
Qed.

(** Reading a property of [v || {}] never throws. *)
Lemma get_prop_or_object (v : JsVal) (k : string) :
  exists x, get_prop (or v (JObj [])) k = Ok x.
Proof.
  unfold or. destruct (truthy v) eqn:E.
  - apply truthy_get_prop. exact E.
  - simpl. eauto.
Qed.

Lemma or_falsy (v d : JsVal) : truthy v = false -> or v d = d.
Proof. unfold or. intros ->. reflexivity. Qed.

Lemma or_truthy (v d : JsVal) : truthy v = true -> or v d = v.
Proof. unfold or. intros ->. reflexivity. Qed.

Lemma truthy_or_true (v : JsVal) : truthy (or v (JBool true)) = true.
Proof. unfold or. destruct (truthy v) eqn:E; [exact E|reflexivity]. Qed.

End JsFacts.

(** Replaces each read of a property of [basic] by the value read. *)
Ltac read_basic :=
  repeat match goal with
  | |- context [get_prop (or ?v (JObj [])) ?k] =>
      let x := fresh "x" in
      let H := fresh "H" in
      destruct (get_prop_or_object v k) as [x H]; rewrite H; clear H
  end.

(** ** Metrics normalizer *)
Section Normalizer.

Import ReportsService.

(** C6: the empty payload normalizes for 'security' to the five
    documented defaults, and normalization for 'security' of any payload
    that is an object returns a metrics object with the five fields: it
    never throws, whatever [basic_metrics] holds. *)
Theorem extract_security_total :
  extractDashboardMetrics (JObj []) (JStr "security")
  = Ok (JObj [ ("total_actions", JNum 0); ("critical_issues", JNum 0);
               ("security_score", JNum 0); ("working_hours", JNum 0);
               ("risk_level", JStr "Unknown") ])
  /\ forall fields : list (string * JsVal),
       exists m, extractDashboardMetrics (JObj fields) (JStr "security") = Ok (JObj m)
                 /\ map fst m = [ "total_actions"; "critical_issues"; "security_score";
                                  "working_hours"; "risk_level" ].
Proof.
  split; [reflexivity|].
  intros fields. unfold extractDashboardMetrics. simpl.
  read_basic. simpl. eexists. split; reflexivity.
Qed.

(** C3 fails for 'cost': with no [optimization_score] in the payload
    the normalizer returns 100, not 0. *)
Lemma cost_default_score_is_100 :
  metric (extractDashboardMetrics (JObj []) (JStr "cost")) "optimization_score" = JNum 100
  /\ metric (extractDashboardMetrics (JObj []) (JStr "cost")) "optimization_score" <> JNum 0.
Proof. split; [reflexivity|discriminate]. Qed.

(** C3, amended: when the score field is absent from the payload, the
    normalizer returns a score of 0 for 'security' and of 100 for
    'performance' and for 'cost'. *)
Theorem default_scores (fields : list (string * JsVal)) :
  (has_field "security_score" fields = false ->
   metric (extractDashboardMetrics (JObj fields) (JStr "security")) "security_score"
   = JNum 0)
  /\ (has_field "performance_score" fields = false ->
      metric (extractDashboardMetrics (JObj fields) (JStr "performance")) "performance_score"
      = JNum 100)
  /\ (has_field "optimization_score" fields = false ->
      metric (extractDashboardMetrics (JObj fields) (JStr "cost")) "optimization_score"
      = JNum 100).
Proof.
  split; [|split]; intros Habs; apply lookup_absent in Habs;
    unfold extractDashboardMetrics; simpl; read_basic; simpl;
    rewrite Habs; reflexivity.
Qed.

Lemma default_scores_witness :
  metric (extractDashboardMetrics (JObj [("basic_metrics", JObj [])]) (JStr "security"))
         "security_score" = JNum 0
  /\ metric (extractDashboardMetrics (JObj [("basic_metrics", JObj [])]) (JStr "performance"))
            "performance_score" = JNum 100
  /\ metric (extractDashboardMetrics (JObj [("basic_metrics", JObj [])]) (JStr "cost"))
            "optimization_score" = JNum 100.
Proof.
  destruct (default_scores [("basic_metrics", JObj [])]) as (Hs & Hp & Hc).
  split; [apply Hs; reflexivity|].
  split; [apply Hp; reflexivity|apply Hc; reflexivity].
Defined.

(** The 'performance' metrics read the payload only through
    [basic_metrics] and [performance_score]. *)
Lemma extract_performance_reads (fields fields' : list (string * JsVal)) :
  lookup_field "basic_metrics" fields = lookup_field "basic_metrics" fields' ->
  or (lookup_field "performance_score" fields) (JNum 100)
  = or (lookup_field "performance_score" fields') (JNum 100) ->
  extractDashboardMetrics (JObj fields) (JStr "performance")
  = extractDashboardMetrics (JObj fields') (JStr "performance").
Proof.
  intros Hb Hs. unfold extractDashboardMetrics. simpl.
  rewrite Hb. read_basic. simpl. rewrite Hs. reflexivity.
Qed.

(** C9: a [performance_score] that is present and falsy (0, the empty
    string, null, ...) is replaced by 100, and the result is the one
    obtained from the payload without the field. *)
Theorem falsy_performance_score_defaults (fields : list (string * JsVal)) :
  has_field "performance_score" fields = true ->
  truthy (lookup_field "performance_score" fields) = false ->
  metric (extractDashboardMetrics (JObj fields) (JStr "performance")) "performance_score"
  = JNum 100
  /\ extractDashboardMetrics (JObj fields) (JStr "performance")
     = extractDashboardMetrics (JObj (remove_field "performance_score" fields))
                               (JStr "performance").
Proof.
  intros _ Hfalsy. split.
  - unfold extractDashboardMetrics. simpl. read_basic. simpl.
    rewrite (or_falsy _ _ Hfalsy). reflexivity.
  - apply extract_performance_reads.
    + symmetry. apply lookup_remove_other. reflexivity.
    + rewrite lookup_remove_same. rewrite (or_falsy _ _ Hfalsy). reflexivity.
Qed.

Lemma falsy_performance_score_defaults_witness :
  metric (extractDashboardMetrics (JObj [("performance_score", JNum 0)]) (JStr "performance"))
         "performance_score" = JNum 100
  /\ extractDashboardMetrics (JObj [("performance_score", JNum 0)]) (JStr "performance")
     = extractDashboardMetrics (JObj (remove_field "performance_score"
                                        [("performance_score", JNum 0)]))
                               (JStr "performance").
Proof.
  apply (falsy_performance_score_defaults [("performance_score", JNum 0)]); reflexivity.
Defined.

End Normalizer.

(** ** Validation gate *)
Section Validation.

Import ReportsService.

(** The result of the validation of an object, rule by rule. *)
Lemma validate_rules (fields : list (string * JsVal)) (short : bool) :
  (if negb (truthy (lookup_field "title" fields)) then Ok true
   else trimmed_shorter_than_3 (lookup_field "title" fields)) = Ok short ->
  let bad_type := negb (truthy (lookup_field "type" fields))
                  || negb (includes report_types (lookup_field "type" fields)) in
  let no_file := negb (truthy (lookup_field "csvFileId" fields)) in
  validateReportConfig (JObj fields)
  = Ok (mkValidation (negb short && negb bad_type && negb no_file)
          (when short title_error ++ when bad_type type_error ++ when no_file file_error)%list).
Proof.
  intros Hshort bad_type no_file. subst bad_type no_file.
  unfold validateReportConfig. cbn [get_prop Js.bind].
  rewrite Hshort. cbn [Js.bind].
  destruct short;
    destruct (negb (truthy (lookup_field "type" fields))
              || negb (includes report_types (lookup_field "type" fields)));
    destruct (negb (truthy (lookup_field "csvFileId" fields))); reflexivity.
Qed.

Lemma title_rule (title : JsVal) :
  title_typed title ->
  exists short,
    (if negb (truthy title) then Ok true else trimmed_shorter_than_3 title) = Ok short
    /\ (title_too_short title -> short = true).
Proof.
  intros [[s ->]|Hfalsy].
  - destruct (truthy (JStr s)) eqn:E; simpl.
    + eexists. split; [reflexivity|].
      intros [Hf|(s' & Heq & Hlen)]; [congruence|].
      injection Heq as <-. apply Nat.ltb_lt. exact Hlen.
    + eexists. split; [reflexivity|]. reflexivity.
  - rewrite Hfalsy. simpl. eexists. split; reflexivity.
Qed.

(** C7: for a configuration whose title is a string or missing, the
    validation returns a result in which every violated rule has its
    error: a title shorter than 3 once trimmed gives [isValid = false]
    and the title error whatever the other fields are, a missing file
    reference gives the file error whatever else is violated, and a
    configuration violating both rules has both errors. *)
Theorem validate_reports_every_violation (fields : list (string * JsVal)) :
  title_typed (lookup_field "title" fields) ->
  exists v,
    validateReportConfig (JObj fields) = Ok v
    /\ (title_too_short (lookup_field "title" fields) ->
        isValid v = false /\ In title_error (errors v))
    /\ (truthy (lookup_field "csvFileId" fields) = false ->
        isValid v = false /\ In file_error (errors v)).
Proof.
  intros Htitle.
  destruct (title_rule _ Htitle) as (short & Hshort & Hviolated).
  eexists. split; [apply (validate_rules fields short Hshort)|]. simpl. split.
  - intros Hs. rewrite (Hviolated Hs). simpl. split; [reflexivity|]. left. reflexivity.
  - intros ->. simpl. split.
    + rewrite andb_false_r. reflexivity.
    + apply in_or_app. right. apply in_or_app. right. left. reflexivity.
Qed.

Lemma validate_reports_every_violation_witness :
  exists v,
    validateReportConfig (JObj [("title", JStr " a "); ("type", JStr "cost")]) = Ok v
    /\ (title_too_short (JStr " a ") -> isValid v = false /\ In title_error (errors v))
    /\ (truthy JUndefined = false -> isValid v = false /\ In file_error (errors v)).
Proof.
  apply (validate_reports_every_violation [("title", JStr " a "); ("type", JStr "cost")]).
  left. exists " a ". reflexivity.
Defined.

End Validation.

(** ** Report submission through services/api.js *)
Section Submission.

Import ApiService.

Variable API_BASE_URL : string.
Variable backend : Backend.

(** [createReport] hands its body to the backend. *)
Lemma createReport_sends (reportData body : JsVal) (w : World) :
  createReportBody reportData = Ok body ->
  map req_body (requests (snd (createReport API_BASE_URL backend reportData w)))
  = (map req_body (requests w) ++ [Some body])%list.
Proof.
  intros Hbody. unfold createReport, fetchWithAuth, fetch. rewrite Hbody.
  destruct (backend (length (requests w))) as [|response]; simpl.
  - rewrite map_app. reflexivity.
  - destruct (status response =? 401); simpl.
    + rewrite map_app. reflexivity.
    + destruct (negb (ok response)); simpl; rewrite map_app; reflexivity.
Qed.

(** C8: when [reportData] has no [configuration] property, the body
    sent to the backend carries three inclusion flags that are all
    truthy, and all [true] when the caller's flags are booleans or not
    given: a [false] flag never reaches the backend. *)
Theorem createReport_flags_coerced (fields : list (string * JsVal)) (w : World) :
  has_field "configuration" fields = false ->
  exists body flags,
    createReportBody (JObj fields) = Ok body
    /\ map req_body (requests (snd (createReport API_BASE_URL backend (JObj fields) w)))
       = (map req_body (requests w) ++ [Some body])%list
    /\ metric (Ok body) "configuration" = JObj flags
    /\ map fst flags
       = ["include_graphics"; "include_detailed_tables"; "include_recommendations"]
    /\ Forall (fun flag => truthy (snd flag) = true) flags
    /\ (boolean_or_absent (lookup_field "includeGraphics" fields) = true ->
        boolean_or_absent (lookup_field "includeDetailedTables" fields) = true ->
        boolean_or_absent (lookup_field "includeRecommendations" fields) = true ->
        JObj flags = all_flags_true).
Proof.
  intros Habs. apply lookup_absent in Habs.
  eexists. eexists. split; [unfold createReportBody; simpl; reflexivity|].
  split; [apply createReport_sends; reflexivity|].
  simpl. rewrite Habs. simpl. split; [reflexivity|]. split; [reflexivity|]. split.
  - repeat constructor; apply truthy_or_true.
  - intros Hg Ht Hr. unfold all_flags_true.
    destruct (lookup_field "includeGraphics" fields) as [| |[|]| | | | |]; try discriminate Hg;
    destruct (lookup_field "includeDetailedTables" fields) as [| |[|]| | | | |];
      try discriminate Ht;
    destruct (lookup_field "includeRecommendations" fields) as [| |[|]| | | | |];
      try discriminate Hr; reflexivity.
Qed.

End Submission.

Lemma createReport_flags_coerced_witness :
  exists body flags,
    ApiService.createReportBody
      (JObj [("title", JStr "Costs"); ("includeGraphics", JBool false)]) = Ok body
    /\ metric (Ok body) "configuration" = JObj flags
    /\ JObj flags = all_flags_true.
Proof.
  destruct (createReport_flags_coerced "http://localhost:8000/api" (fun _ => NetworkError)
              [("title", JStr "Costs"); ("includeGraphics", JBool false)]
              (mkWorld ∅ ∅ "/reports" [] [] []) eq_refl)
    as (body & flags & Hbody & _ & Hcfg & _ & _ & Hall).
  exists body, flags. split; [exact Hbody|]. split; [exact Hcfg|].
  apply Hall; reflexivity.
Defined.

(** ** Polling in services/reportsService.js *)
Section ServicePolling.

Import ReportsService.

Variable baseURL : string.
Variable backend : Backend.
Variable reportId : string.
Variable onStatusUpdate : bool.
Variable maxAttempts : nat.

Let checkStatus := checkStatus baseURL backend reportId onStatusUpdate maxAttempts.
Let polled := polled baseURL backend reportId onStatusUpdate.

Lemma pending_inv (o : FetchOutcome) :
  pending o = true ->
  exists r st,
    o = Responded r /\ ok r = true /\ json r = Some (report_of o)
    /\ get_prop (report_of o) "status" = Ok st
    /\ is_str st "completed" = false /\ is_str st "failed" = false.
Proof.
  destruct o as [|r]; simpl; [discriminate|].
  destruct (ok r) eqn:Hok; [|discriminate].
  destruct (json r) as [report|] eqn:Hjson; [|discriminate].
  destruct (get_prop report "status") as [st|] eqn:Hst; [|discriminate]. simpl.
  intros H. apply andb_true_iff in H. destruct H as [Hc Hf].
  apply negb_true_iff in Hc. apply negb_true_iff in Hf.
  exists r, st. repeat split; assumption.
Qed.

Lemma has_status_pending (st : string) (o : FetchOutcome) :
  String.eqb st "completed" = false -> String.eqb st "failed" = false ->
  has_status st o = true -> pending o = true.
Proof.
  intros Hc Hf. destruct o as [|r]; simpl; [discriminate|].
  destruct (ok r); [|discriminate]. destruct (json r) as [report|]; [|discriminate].
  destruct (get_prop report "status") as [v|]; [|discriminate]. simpl.
  destruct v; simpl; try discriminate.
  intros Hs. apply String.eqb_eq in Hs. subst s. rewrite Hc, Hf. reflexivity.
Qed.

Lemma getReport_pending (w : World) :
  pending (backend (length (requests w))) = true ->
  fst (getReport baseURL backend reportId w) = Ok (report_of (backend (length (requests w)))).
Proof.
  intros Hp. apply pending_inv in Hp.
  destruct Hp as (r & st & Ho & Hok & Hjson & _).
  unfold getReport, fetch, handleResponse, read_json.
  rewrite Ho in *. simpl in *. rewrite Hok, Hjson. reflexivity.
Qed.

Lemma polled_pending (w : World) :
  pending (backend (length (requests w))) = true ->
  polled w
  = call_onStatusUpdate onStatusUpdate (report_of (backend (length (requests w))))
      (snd (getReport baseURL backend reportId w)).
Proof.
  intros Hp. apply getReport_pending in Hp.
  unfold polled, ReportsService.polled.
  destruct (getReport baseURL backend reportId w) as [out w1]. simpl in *.
  rewrite Hp. reflexivity.
Qed.

Lemma getReport_world (w : World) :
  snd (getReport baseURL backend reportId w)
  = snd (fetch backend
           (mkRequest "GET" (baseURL +:+ "/reports/" +:+ reportId +:+ "/") (getHeaders w) None)
           w).
Proof.
  unfold getReport, fetch. destruct (backend (length (requests w))); reflexivity.
Qed.

Lemma polled_requests (w : World) :
  pending (backend (length (requests w))) = true ->
  length (requests (polled w)) = S (length (requests w)).
Proof.
  intros Hp. rewrite (polled_pending w Hp), getReport_world.
  unfold call_onStatusUpdate, fetch. destruct onStatusUpdate; simpl;
    rewrite length_app; simpl; lia.
Qed.

Lemma polled_timers (w : World) :
  pending (backend (length (requests w))) = true ->
  timers (polled w) = timers w.
Proof.
  intros Hp. rewrite (polled_pending w Hp), getReport_world.
  unfold call_onStatusUpdate, fetch. destruct onStatusUpdate; reflexivity.
Qed.

Lemma polled_updates (w : World) :
  pending (backend (length (requests w))) = true ->
  updates (polled w)
  = (updates w ++ if onStatusUpdate then [report_of (backend (length (requests w)))] else [])%list.
Proof.
  intros Hp. rewrite (polled_pending w Hp), getReport_world.
  unfold call_onStatusUpdate, fetch. destruct onStatusUpdate; simpl;
    rewrite ?app_nil_r; reflexivity.
Qed.

(** One run of [checkStatus] on a pending report: the timeout when the
    attempts are used up, another run five seconds later otherwise. *)
Lemma checkStatus_pending_step (attempts : nat) (w : World) :
  pending (backend (length (requests w))) = true ->
  checkStatus attempts w
  = if le_lt_dec maxAttempts attempts
    then (Rejected timeout_error, polled w)
    else checkStatus (S attempts) (setTimeout 5000 (polled w)).
Proof.
  intros Hp. rewrite (polled_pending w Hp). apply pending_inv in Hp.
  destruct Hp as (r & st & Ho & Hok & Hjson & Hst & Hc & Hf).
  unfold checkStatus.
  rewrite ReportsService.checkStatus_unfold_eq. unfold ReportsService.checkStatus_unfold.
  unfold getReport, fetch.
  rewrite Ho in *. simpl in *. unfold handleResponse, read_json.
  rewrite Hok, Hjson. simpl. rewrite Hst. simpl. rewrite Hc. simpl. rewrite Hf. simpl.
  destruct (le_lt_dec maxAttempts attempts); simpl; reflexivity.
Qed.

(** The polling loop on a report that stays pending: it runs
    [maxAttempts - attempts + 1] polls, notifies the callback of each
    and rejects with the timeout. *)
Lemma checkStatus_pending (d : nat) :
  forall (attempts : nat) (w : World),
    (maxAttempts - attempts)%nat = d ->
    (forall k, (length (requests w) <= k)%nat -> pending (backend k) = true) ->
    fst (checkStatus attempts w) = Rejected timeout_error
    /\ length (requests (snd (checkStatus attempts w))) = (length (requests w) + S d)%nat
    /\ timers (snd (checkStatus attempts w)) = (timers w ++ repeat 5000 d)%list
    /\ updates (snd (checkStatus attempts w))
       = (updates w ++ if onStatusUpdate
                       then reports_of backend (length (requests w)) (S d) else [])%list.
Proof.
  induction d as [|d IH]; intros attempts w Hd Hpend;
    rewrite (checkStatus_pending_step attempts w (Hpend _ (le_n _)));
    destruct (le_lt_dec maxAttempts attempts) as [Hle|Hlt]; try lia; simpl.
  - rewrite polled_requests, polled_timers, polled_updates, app_nil_r
      by exact (Hpend _ (le_n _)).
    repeat split; try reflexivity. lia.
  - assert (Hd' : (maxAttempts - S attempts)%nat = d) by lia.
    assert (Hlen : length (requests (setTimeout 5000 (polled w))) = S (length (requests w))).
    { simpl. apply polled_requests. exact (Hpend _ (le_n _)). }
    destruct (IH (S attempts) (setTimeout 5000 (polled w)) Hd') as (Hr & Hn & Ht & Hu).
    { intros k Hk. apply Hpend. rewrite Hlen in Hk. lia. }
    rewrite Hr, Hn, Ht, Hu, Hlen. simpl timers. simpl updates.
    rewrite polled_timers, polled_updates by exact (Hpend _ (le_n _)).
    repeat split.
    + lia.
    + rewrite <- app_assoc. reflexivity.
    + rewrite <- app_assoc. destruct onStatusUpdate; reflexivity.
Qed.

End ServicePolling.

(** ** Polling in pages/Reports.jsx *)
Section PagePolling.

Import ReportsPage.

Variable backend : Backend.
Variable reportId : string.

Local Arguments le_lt_dec : simpl never.

Let asked := asked backend reportId.

Lemma asked_requests (w : World) : length (requests (asked w)) = S (length (requests w)).
Proof. unfold asked, fetch. simpl. rewrite length_app. simpl. lia. Qed.

Lemma page_checkStatus_pending_step (attempts : nat) (pg : Page) (w : World) :
  pending (backend (length (requests w))) = true ->
  checkStatus backend reportId attempts pg w
  = if le_lt_dec maxAttempts attempts
    then (stop_generating pg, asked w)
    else checkStatus backend reportId (S attempts) pg (setTimeout 5000 (asked w)).
Proof.
  intros Hp. apply pending_inv in Hp.
  destruct Hp as (r & st & Ho & Hok & Hjson & Hst & Hc & Hf).
  rewrite checkStatus_unfold_eq. unfold checkStatus_unfold, asked, fetch.
  rewrite Ho in *. simpl in *. rewrite Hok. simpl. unfold read_json. rewrite Hjson. simpl.
  rewrite Hst. simpl. rewrite Hc. simpl. rewrite Hf. simpl.
  destruct (le_lt_dec maxAttempts attempts); simpl; reflexivity.
Qed.

(** The page's loop on a report that stays pending: one request more
    than the attempts left, then the generation is given up. *)
Lemma page_checkStatus_pending (d : nat) :
  forall (attempts : nat) (pg : Page) (w : World),
    (maxAttempts - attempts)%nat = d ->
    (forall k, (length (requests w) <= k)%nat -> pending (backend k) = true) ->
    fst (checkStatus backend reportId attempts pg w) = stop_generating pg
    /\ length (requests (snd (checkStatus backend reportId attempts pg w)))
       = (length (requests w) + S d)%nat.
Proof.
  induction d as [|d IH]; intros attempts pg w Hd Hpend;
    rewrite (page_checkStatus_pending_step attempts pg w (Hpend _ (le_n _)));
    destruct (le_lt_dec maxAttempts attempts) as [Hle|Hlt]; try lia; cbn [fst snd].
  - rewrite asked_requests. split; [reflexivity|lia].
  - assert (Hd' : (maxAttempts - S attempts)%nat = d) by lia.
    assert (Hlen : length (requests (setTimeout 5000 (asked w))) = S (length (requests w))).
    { simpl. apply asked_requests. }
    destruct (IH (S attempts) pg (setTimeout 5000 (asked w)) Hd') as (Hr & Hn).
    { intros k Hk. apply Hpend. rewrite Hlen in Hk. lia. }
    rewrite Hr, Hn, Hlen. split; [reflexivity|lia].
Qed.

End PagePolling.

(** ** The attempt bound of the polling loops *)
Section AttemptBound.

Variable baseURL : string.
Variable backend : Backend.
Variable reportId : string.

(** C1, as the code has it: with [maxAttempts = 60] and a report that is
    never 'completed' nor 'failed', one call of the service's
    [pollReportStatus] rejects with the timeout after 61 requests, not
    60; the page's loop, with its constant bound of 60, issues 61
    requests as well. *)
Theorem poll_60_attempts_issues_61_requests
  (onStatusUpdate : bool) (pg : ReportsPage.Page) (w : World) :
  (forall k, (length (requests w) <= k)%nat -> pending (backend k) = true) ->
  fst (ReportsService.pollReportStatus baseURL backend reportId onStatusUpdate 60 w)
  = Rejected ReportsService.timeout_error
  /\ length (requests (snd (ReportsService.pollReportStatus
                              baseURL backend reportId onStatusUpdate 60 w)))
     = (length (requests w) + 61)%nat
  /\ length (requests (snd (ReportsPage.pollReportStatus backend reportId pg w)))
     = (length (requests w) + 61)%nat.
Proof.
  intros Hpend.
  destruct (checkStatus_pending baseURL backend reportId onStatusUpdate 60 60 0
              (setTimeout 3000 w) eq_refl Hpend) as (Hr & Hn & _).
  destruct (page_checkStatus_pending backend reportId 60 0 pg
              (setTimeout 3000 w) eq_refl Hpend) as (_ & Hn').
  unfold ReportsService.pollReportStatus, ReportsPage.pollReportStatus.
  split; [exact Hr|]. split; [exact Hn|exact Hn'].
Qed.

(** C10: when every poll finds the report 'cancelled', the loop does not
    settle on it: it runs all its [maxAttempts + 1] polls, five seconds
    apart, hands each report to the status callback and then rejects
    with the timeout. *)
Theorem cancelled_polls_until_timeout
  (onStatusUpdate : bool) (maxAttempts : nat) (w : World) :
  (forall k, (length (requests w) <= k)%nat -> has_status "cancelled" (backend k) = true) ->
  let r := ReportsService.pollReportStatus
             baseURL backend reportId onStatusUpdate maxAttempts w in
  fst r = Rejected ReportsService.timeout_error
  /\ length (requests (snd r)) = (length (requests w) + maxAttempts + 1)%nat
  /\ timers (snd r) = (timers w ++ 3000 :: repeat 5000 maxAttempts)%list
  /\ updates (snd r)
     = (updates w ++ if onStatusUpdate
                     then reports_of backend (length (requests w)) (S maxAttempts)
                     else [])%list.
Proof.
  intros Hcancelled r.
  assert (Hpend : forall k, (length (requests w) <= k)%nat -> pending (backend k) = true).
  { intros k Hk. apply (has_status_pending "cancelled"); [reflexivity|reflexivity|].
    apply Hcancelled. exact Hk. }
  destruct (checkStatus_pending baseURL backend reportId onStatusUpdate maxAttempts
              maxAttempts 0 (setTimeout 3000 w) (Nat.sub_0_r _) Hpend)
    as (Hr & Hn & Ht & Hu).
  subst r. unfold ReportsService.pollReportStatus.
  split; [exact Hr|]. split; [rewrite Hn; simpl; lia|].
  split; [rewrite Ht; simpl; rewrite <- app_assoc; reflexivity|exact Hu].
Qed.

End AttemptBound.

Lemma poll_60_attempts_issues_61_requests_witness :
  fst (ReportsService.pollReportStatus "/api" (always "processing") "7" true 60 empty_world)
  = Rejected ReportsService.timeout_error
  /\ length (requests (snd (ReportsService.pollReportStatus
                              "/api" (always "processing") "7" true 60 empty_world)))
     = 61%nat
  /\ length (requests (snd (ReportsPage.pollReportStatus (always "processing") "7"
                              (ReportsPage.mkPage true 0 JNull true empty_array)
                              empty_world)))
     = 61%nat.
Proof.
  apply (poll_60_attempts_issues_61_requests "/api" (always "processing") "7" true
           (ReportsPage.mkPage true 0 JNull true empty_array) empty_world).
  intros k _. reflexivity.
Defined.

Lemma cancelled_polls_until_timeout_witness :
  let r := ReportsService.pollReportStatus "/api" (always "cancelled") "7" true 2 empty_world in
  fst r = Rejected ReportsService.timeout_error
  /\ length (requests (snd r)) = 3%nat
  /\ timers (snd r) = [3000; 5000; 5000]
  /\ updates (snd r) = reports_of (always "cancelled") 0 3.
Proof.
  apply (cancelled_polls_until_timeout "/api" (always "cancelled") "7" true 2 empty_world).
  intros k _. reflexivity.
Defined.

(** ** Transport client of config/api.js *)
Section TransportFacts.

Import ApiConfig.

Variable BASE_URL : string.
Variable backend : Backend.

Local Arguments le_lt_dec : simpl never.

Lemma handleApiResponse_requests (r : Response) (w : World) :
  requests (snd (handleApiResponse r w)) = requests w
  /\ timers (snd (handleApiResponse r w)) = timers w.
Proof.
  unfold handleApiResponse.
  destruct (negb (ok r)); [|split; reflexivity].
  repeat match goal with
         | |- context [if ?c then _ else _] => destruct c
         end; split; reflexivity.
Qed.

Lemma handleApiResponse_fails (r : Response) (w : World) :
  failing (Responded r) = true -> exists e, fst (handleApiResponse r w) = Threw e.
Proof.
  unfold failing, handleApiResponse, read_json.
  destruct (negb (ok r)); simpl.
  - intros _.
    repeat match goal with
           | |- context [if ?c then _ else _] => destruct c
           end; simpl; eauto.
    destruct (get_prop _ "detail"); simpl; eauto.
    destruct (get_prop _ "message"); simpl; eauto.
  - destruct (json r); [discriminate|eauto].
Qed.

(** A failing attempt throws, having sent one request. *)
Lemma attempt_fails (url method : string) (body : option JsVal) (w : World) :
  failing (backend (length (requests w))) = true ->
  exists e,
    fst (attempt backend url method body w) = Threw e
    /\ length (requests (snd (attempt backend url method body w))) = S (length (requests w))
    /\ timers (snd (attempt backend url method body w)) = timers w.
Proof.
  intros Hf. unfold attempt, fetch.
  destruct (backend (length (requests w))) as [|r].
  - exists NetworkFailure. simpl. rewrite length_app. simpl. repeat split. lia.
  - destruct (handleApiResponse_fails r
                (mkWorld (localStorage w) (sessionStorage w) (href w)
                   (requests w ++ [mkRequest method url None body]) (timers w) (updates w)) Hf)
      as [e He].
    destruct (handleApiResponse_requests r
                (mkWorld (localStorage w) (sessionStorage w) (href w)
                   (requests w ++ [mkRequest method url None body]) (timers w) (updates w)))
      as [Hr Ht].
    exists e. rewrite He, Hr, Ht. simpl. rewrite length_app. simpl. repeat split. lia.
Qed.

(** The [catch] of [fetchWithRetry]: it looks at the retry count alone. *)
Lemma fetchWithRetry_caught (url method : string) (body : option JsVal)
  (retryCount : nat) (w : World) (e : JsError) :
  fst (attempt backend url method body w) = Threw e ->
  fetchWithRetry backend url method body retryCount w
  = if le_lt_dec RETRY_ATTEMPTS retryCount
    then (Threw e, snd (attempt backend url method body w))
    else fetchWithRetry backend url method body (S retryCount)
           (setTimeout (retry_delay retryCount) (snd (attempt backend url method body w))).
Proof.
  intros He. rewrite fetchWithRetry_unfold_eq. unfold fetchWithRetry_unfold.
  destruct (attempt backend url method body w) as [res w1]. simpl in He. subst res. simpl.
  destruct (le_lt_dec RETRY_ATTEMPTS retryCount); reflexivity.
Qed.

(** On a backend where every attempt fails, every attempt left is made,
    each after its backoff delay, and the last error is thrown. *)
(** What [handleApiResponse] returns or throws does not depend on the
    world. *)
Lemma handleApiResponse_result (r : Response) (w w' : World) :
  fst (handleApiResponse r w) = fst (handleApiResponse r w').
Proof.
  unfold handleApiResponse.
  destruct (negb (ok r)); [|reflexivity].
  repeat match goal with
         | |- context [if ?c then _ else _] => destruct c
         end; reflexivity.
Qed.

Lemma attempt_result_spec (url method : string) (body : option JsVal) (w : World) :
  fst (attempt backend url method body w) = attempt_result (backend (length (requests w))).
Proof.
  unfold attempt, attempt_result, fetch.
  destruct (backend (length (requests w))) as [|r]; [reflexivity|].
  apply handleApiResponse_result.
Qed.

Lemma fetchWithRetry_all_fail (url method : string) (body : option JsVal) (d : nat) :
  forall (retryCount : nat) (w : World),
    (RETRY_ATTEMPTS - retryCount)%nat = d ->
    (forall k, (length (requests w) <= k)%nat -> failing (backend k) = true) ->
    (exists e, fst (fetchWithRetry backend url method body retryCount w) = Threw e
               /\ attempt_result (backend (length (requests w) + d)%nat) = Threw e)
    /\ length (requests (snd (fetchWithRetry backend url method body retryCount w)))
       = (length (requests w) + S d)%nat
    /\ timers (snd (fetchWithRetry backend url method body retryCount w))
       = (timers w ++ map retry_delay (seq retryCount d))%list.
Proof.
  induction d as [|d IH]; intros retryCount w Hd Hfail;
    destruct (attempt_fails url method body w (Hfail _ (le_n _))) as (e & He & Hn & Ht);
    rewrite (fetchWithRetry_caught url method body retryCount w e He);
    destruct (le_lt_dec RETRY_ATTEMPTS retryCount) as [Hle|Hlt]; try lia; cbn [fst snd].
  - rewrite Hn, Ht, app_nil_r, Nat.add_0_r, <- (attempt_result_spec url method body w).
    split; [eauto|]. split; [lia|reflexivity].
  - assert (Hd' : (RETRY_ATTEMPTS - S retryCount)%nat = d) by lia.
    set (w1 := setTimeout (retry_delay retryCount) (snd (attempt backend url method body w))).
    assert (Hlen : length (requests w1) = S (length (requests w))) by exact Hn.
    destruct (IH (S retryCount) w1 Hd') as ((e' & Hr & Hlast) & Hn1 & Ht1).
    { intros k Hk. apply Hfail. rewrite Hlen in Hk. lia. }
    split.
    { exists e'. split; [exact Hr|]. rewrite Hlen in Hlast.
      replace (length (requests w) + S d)%nat with (S (length (requests w)) + d)%nat by lia.
      exact Hlast. }
    rewrite Hn1, Ht1, Hlen. split; [lia|].
    subst w1. simpl timers. rewrite Ht, <- app_assoc. reflexivity.
Qed.

(** C4, amended: [fetchWithRetry] retries every failed attempt alike,
    be it a network error, a body that is not JSON or any status
    outside 2xx (400, 403, 404, 413, 422 as much as 429 and 5xx): when
    every attempt fails it sends 4 requests, waits 1000, 2000 and
    4000 ms between them and then throws the last error, the one of
    the fourth attempt. *)
Theorem fetchWithRetry_retries_every_failure
  (url method : string) (body : option JsVal) (w : World) :
  (forall k, (length (requests w) <= k)%nat -> failing (backend k) = true) ->
  (exists e, fst (fetchWithRetry backend url method body 0 w) = Threw e
             /\ attempt_result (backend (length (requests w) + 3)%nat) = Threw e)
  /\ length (requests (snd (fetchWithRetry backend url method body 0 w)))
     = (length (requests w) + 4)%nat
  /\ timers (snd (fetchWithRetry backend url method body 0 w))
     = (timers w ++ [1000; 2000; 4000])%list.
Proof.
  intros Hfail.
  exact (fetchWithRetry_all_fail url method body 3 0 w eq_refl Hfail).
Qed.

Lemma status_401_not_ok (r : Response) : status r = 401 -> ok r = false.
Proof. unfold ok. intros ->. reflexivity. Qed.

Lemma clear_session_effect (w : World) :
  href (clear_session w) = "/"
  /\ getItem (localStorage (clear_session w)) "access_token" = JNull
  /\ getItem (sessionStorage (clear_session w)) "access_token" = JNull
  /\ getItem (localStorage (clear_session w)) "refresh_token" = JNull
  /\ getItem (sessionStorage (clear_session w)) "refresh_token" = JNull
  /\ (forall key, key <> "access_token" -> key <> "refresh_token" ->
      localStorage (clear_session w) !! key = localStorage w !! key
      /\ sessionStorage (clear_session w) !! key = sessionStorage w !! key).
Proof.
  unfold clear_session, getItem. simpl.
  split; [reflexivity|].
  do 4 (split; [by simplify_map_eq|]).
  intros key Ha Hr. split; by simplify_map_eq.
Qed.

(** C5, amended: on a response with status 401 the transport layer
    throws its session-expired error and, before that, removes
    [access_token] and [refresh_token] from both storages and sets
    [window.location.href] to '/'; the other stored items are left as
    they were.  This holds for [fetchWithAuth] and for
    [handleApiResponse]. *)
Theorem unauthorized_clears_session_and_redirects
  (url method : string) (body : option JsVal) (r : Response) (w : World) :
  backend (length (requests w)) = Responded r ->
  status r = 401 ->
  let res := fetchWithAuth BASE_URL backend url method body w in
  fst res = Threw session_expired
  /\ handleApiResponse r w = (Threw session_expired_login, clear_session w)
  /\ href (snd res) = "/"
  /\ getItem (localStorage (snd res)) "access_token" = JNull
  /\ getItem (sessionStorage (snd res)) "access_token" = JNull
  /\ getItem (localStorage (snd res)) "refresh_token" = JNull
  /\ getItem (sessionStorage (snd res)) "refresh_token" = JNull
  /\ (forall key, key <> "access_token" -> key <> "refresh_token" ->
      localStorage (snd res) !! key = localStorage w !! key
      /\ sessionStorage (snd res) !! key = sessionStorage w !! key).
Proof.
  intros Ho Hs res. subst res. unfold fetchWithAuth, fetch. rewrite Ho, Hs. cbn [fst snd Z.eqb Pos.eqb].
  split; [reflexivity|]. split.
  - unfold handleApiResponse. rewrite (status_401_not_ok r Hs), Hs. reflexivity.
  - match goal with
    | |- context [clear_session ?w1] => exact (clear_session_effect w1)
    end.
Qed.

End TransportFacts.

(** C4 fails on a 404: the request is sent four times, with three
    backoff delays, before the error reaches the caller. *)
Lemma not_found_is_retried :
  length (requests (snd (ApiConfig.fetchWithRetry (always_code 404)
                           "/reports/7/" "GET" None 0 empty_world))) = 4%nat
  /\ length (requests (snd (ApiConfig.fetchWithRetry (always_code 404)
                              "/reports/7/" "GET" None 0 empty_world))) <> 1%nat
  /\ timers (snd (ApiConfig.fetchWithRetry (always_code 404)
                    "/reports/7/" "GET" None 0 empty_world)) = [1000; 2000; 4000].
Proof. vm_compute. repeat split. discriminate. Qed.

Lemma fetchWithRetry_retries_every_failure_witness :
  let backend := scripted [Responded (mkResponse 404 None); Responded (mkResponse 500 None);
                           NetworkError; Responded (mkResponse 422 None)] in
  (exists e, fst (ApiConfig.fetchWithRetry backend "/reports/" "POST" None 0 empty_world)
             = Threw e
             /\ @Threw JsVal (ErrorMsg (JStr "Datos inválidos. Verifica la información enviada."))
                = Threw e)
  /\ length (requests (snd (ApiConfig.fetchWithRetry backend "/reports/" "POST" None 0
                              empty_world))) = 4%nat
  /\ timers (snd (ApiConfig.fetchWithRetry backend "/reports/" "POST" None 0 empty_world))
     = [1000; 2000; 4000].
Proof.
  apply (fetchWithRetry_retries_every_failure
           (scripted [Responded (mkResponse 404 None); Responded (mkResponse 500 None);
                      NetworkError; Responded (mkResponse 422 None)])
           "/reports/" "POST" None empty_world).
  intros k _. destruct k as [|[|[|[|k]]]]; try reflexivity.
  unfold scripted. simpl. destruct k; reflexivity.
Defined.

(** C5 fails: on a 401 the transport layer itself navigates, from
    '/reports' to '/'. *)
Lemma unauthorized_navigates :
  href empty_world = "/reports"
  /\ href (snd (ApiConfig.fetchWithAuth "http://localhost:8000/api" (always_code 401)
                  "/reports/" "GET" None empty_world)) = "/"
  /\ href (snd (ApiConfig.fetchWithAuth "http://localhost:8000/api" (always_code 401)
                  "/reports/" "GET" None empty_world)) <> href empty_world.
Proof. vm_compute. repeat split. discriminate. Qed.

Lemma unauthorized_clears_session_and_redirects_witness :
  fst (ApiConfig.fetchWithAuth "http://localhost:8000/api" (always_code 401)
         "/reports/" "GET" None empty_world) = Threw ApiConfig.session_expired
  /\ href (snd (ApiConfig.fetchWithAuth "http://localhost:8000/api" (always_code 401)
                  "/reports/" "GET" None empty_world)) = "/".
Proof.
  destruct (unauthorized_clears_session_and_redirects "http://localhost:8000/api"
              (always_code 401) "/reports/" "GET" None (mkResponse 401 None) empty_world
              eq_refl eq_refl) as (Hthrown & _ & Hhref & _).
  split; [exact Hthrown|exact Hhref].
Defined.

(** ** Batch metrics of the dashboard *)
Section BatchStats.

Import ReportsService Dashboard.

(** Normalizing an object never throws, whatever the report type. *)
Lemma extract_object_total (fields : list (string * JsVal)) (reportType : JsVal) :
  exists m, extractDashboardMetrics (JObj fields) reportType = Ok (JObj m).
Proof.
  unfold extractDashboardMetrics. simpl.
  destruct (is_str reportType "security"); [read_basic; simpl; eauto|].
  destruct (is_str reportType "performance"); [read_basic; simpl; eauto|].
  destruct (is_str reportType "cost"); read_basic; simpl; eauto.
Qed.

Variable analytics : string -> Result JsVal.

(** Each entry of the stats is the outcome of its own type alone. *)
Lemma loadSpecializedStats_entries :
  let entry type := match getAnalyticsForType analytics type with
                    | Ok typeStats => typeStats
                    | Threw _ => JNull
                    end in
  loadSpecializedStats analytics
  = JObj [ ("security", entry "security");
           ("performance", entry "performance");
           ("cost", entry "cost") ].
Proof.
  unfold loadSpecializedStats, load_one. simpl.
  destruct (getAnalyticsForType analytics "security");
    destruct (getAnalyticsForType analytics "performance");
    destruct (getAnalyticsForType analytics "cost"); reflexivity.
Qed.

(** C2, as the code has it: the service object has no member
    [getAnalyticsForType], so each of the three calls throws a
    TypeError that the loop catches: the stats hold [null] for
    'security', 'performance' and 'cost' alike, whatever the backend
    would have answered. *)
Theorem loadSpecializedStats_all_null :
  existsb (String.eqb "getAnalyticsForType") ReportsService.members = false
  /\ loadSpecializedStats analytics
     = JObj [ ("security", JNull); ("performance", JNull); ("cost", JNull) ].
Proof. split; reflexivity. Qed.

End BatchStats.


(** ** How the service's polling settles *)
Section ServicePollingOutcomes.

Import ReportsService.

Variable baseURL : string.
Variable backend : Backend.
Variable reportId : string.
Variable onStatusUpdate : bool.
Variable maxAttempts : nat.

Let checkStatus := checkStatus baseURL backend reportId onStatusUpdate maxAttempts.
Let polled := polled baseURL backend reportId onStatusUpdate.
Let after := after_pending_polls baseURL backend reportId onStatusUpdate.

Lemma after_succ (n : nat) (w : World) :
  after (S n) w = after n (setTimeout 5000 (polled w)).
Proof. unfold after, after_pending_polls. rewrite Nat.iter_succ_r. reflexivity. Qed.

(** The world after [n] pending polls. *)
Lemma after_pending_world (n : nat) :
  forall w : World,
    (forall k, (length (requests w) <= k < length (requests w) + n)%nat ->
               pending (backend k) = true) ->
    length (requests (after n w)) = (length (requests w) + n)%nat
    /\ timers (after n w) = (timers w ++ repeat 5000 n)%list
    /\ updates (after n w)
       = (updates w ++ if onStatusUpdate
                       then reports_of backend (length (requests w)) n else [])%list.
Proof.
  induction n as [|n IH]; intros w Hpend.
  - unfold after, after_pending_polls. simpl. rewrite !app_nil_r, Nat.add_0_r.
    destruct onStatusUpdate; simpl; rewrite ?app_nil_r; repeat split; reflexivity.
  - assert (Hp : pending (backend (length (requests w))) = true) by (apply Hpend; lia).
    assert (Hlen : length (requests (setTimeout 5000 (polled w))) = S (length (requests w))).
    { simpl. apply (polled_requests baseURL backend reportId onStatusUpdate maxAttempts). exact Hp. }
    rewrite after_succ.
    destruct (IH (setTimeout 5000 (polled w))) as (Hn & Ht & Hu).
    { intros k Hk. apply Hpend. rewrite Hlen in Hk. lia. }
    rewrite Hn, Ht, Hu, Hlen. simpl timers. simpl updates.
    unfold polled.
    rewrite (polled_timers baseURL backend reportId onStatusUpdate maxAttempts w Hp),
      (polled_updates baseURL backend reportId onStatusUpdate maxAttempts w Hp).
    repeat split.
    + lia.
    + rewrite <- app_assoc. reflexivity.
    + rewrite <- app_assoc. destruct onStatusUpdate; reflexivity.
Qed.

(** Pending polls are passed over, as long as attempts are left. *)
Lemma checkStatus_skips_pending (n : nat) :
  forall (attempts : nat) (w : World),
    (attempts + n <= maxAttempts)%nat ->
    (forall k, (length (requests w) <= k < length (requests w) + n)%nat ->
               pending (backend k) = true) ->
    checkStatus attempts w = checkStatus (attempts + n) (after n w).
Proof.
  induction n as [|n IH]; intros attempts w Hle Hpend.
  - rewrite Nat.add_0_r. reflexivity.
  - assert (Hp : pending (backend (length (requests w))) = true) by (apply Hpend; lia).
    unfold checkStatus.
    rewrite (checkStatus_pending_step baseURL backend reportId onStatusUpdate maxAttempts
               attempts w Hp).
    destruct (le_lt_dec maxAttempts attempts) as [Hge|Hlt]; [lia|].
    rewrite after_succ. replace (attempts + S n)%nat with (S attempts + n)%nat by lia.
    apply IH; [lia|].
    intros k Hk. apply Hpend.
    assert (Hlen : length (requests (setTimeout 5000 (polled w))) = S (length (requests w))).
    { simpl. apply (polled_requests baseURL backend reportId onStatusUpdate maxAttempts). exact Hp. }
    rewrite Hlen in Hk. lia.
Qed.

Lemma is_str_eq (v : JsVal) (st : string) : is_str v st = true -> v = JStr st.
Proof.
  destruct v; simpl; try discriminate. intros H. apply String.eqb_eq in H. congruence.
Qed.

Lemma has_status_inv (st : string) (o : FetchOutcome) :
  has_status st o = true ->
  exists r,
    o = Responded r /\ ok r = true /\ json r = Some (report_of o)
    /\ get_prop (report_of o) "status" = Ok (JStr st).
Proof.
  destruct o as [|r]; simpl; [discriminate|].
  destruct (ok r) eqn:Hok; [|discriminate].
  destruct (json r) as [report|] eqn:Hjson; [|discriminate].
  destruct (get_prop report "status") as [v|] eqn:Hst; [|discriminate]. simpl.
  intros H. apply is_str_eq in H. subst v. exists r. repeat split; assumption.
Qed.

Lemma reports_of_succ (from n : nat) :
  reports_of backend from (S n)
  = (reports_of backend from n ++ [report_of (backend (from + n)%nat)])%list.
Proof. unfold reports_of. rewrite seq_S, map_app. reflexivity. Qed.

Let final := last_poll baseURL backend reportId onStatusUpdate.

Lemma final_world (report : option JsVal) (w : World) :
  length (requests (final report w)) = S (length (requests w))
  /\ timers (final report w) = timers w
  /\ updates (final report w)
     = (updates w ++ match report with
                     | Some report => if onStatusUpdate then [report] else []
                     | None => []
                     end)%list.
Proof.
  unfold final, last_poll, call_onStatusUpdate, fetch.
  destruct report; [destruct onStatusUpdate|]; simpl;
    rewrite length_app, ?app_nil_r; simpl; repeat split; lia.
Qed.

(** A poll that finds the report 'completed' resolves with it. *)
Lemma checkStatus_completed (attempts : nat) (w : World) :
  has_status "completed" (backend (length (requests w))) = true ->
  checkStatus attempts w
  = (Resolved (report_of (backend (length (requests w)))),
     final (Some (report_of (backend (length (requests w))))) w).
Proof.
  intros Hs. apply has_status_inv in Hs. destruct Hs as (r & Ho & Hok & Hjson & Hst).
  unfold checkStatus, final, last_poll.
  rewrite ReportsService.checkStatus_unfold_eq. unfold ReportsService.checkStatus_unfold.
  unfold getReport, fetch.
  rewrite Ho in *. simpl in *. unfold handleResponse, read_json.
  rewrite Hok, Hjson. simpl. rewrite Hst. reflexivity.
Qed.

(** A poll that finds the report 'failed' rejects with its
    [error_message], or with the default message. *)
Lemma checkStatus_failed (attempts : nat) (w : World) :
  has_status "failed" (backend (length (requests w))) = true ->
  exists message,
    get_prop (report_of (backend (length (requests w)))) "error_message" = Ok message
    /\ checkStatus attempts w
       = (Rejected (ErrorMsg (or message (JStr "Report generation failed"))),
          final (Some (report_of (backend (length (requests w))))) w).
Proof.
  intros Hs. apply has_status_inv in Hs. destruct Hs as (r & Ho & Hok & Hjson & Hst).
  assert (Hmsg : exists message,
             get_prop (report_of (backend (length (requests w)))) "error_message"
             = Ok message).
  { destruct (report_of (backend (length (requests w)))); simpl in *;
      try discriminate; eauto. }
  destruct Hmsg as [message Hmsg]. exists message. split; [exact Hmsg|].
  unfold checkStatus, final, last_poll.
  rewrite ReportsService.checkStatus_unfold_eq. unfold ReportsService.checkStatus_unfold.
  unfold getReport, fetch.
  rewrite Ho in *. simpl in *. unfold handleResponse, read_json.
  rewrite Hok, Hjson. simpl. rewrite Hst. simpl.
  unfold generation_failed. rewrite Hmsg. reflexivity.
Qed.

(** A poll whose request fails rejects with the error of the request. *)
Lemma checkStatus_transport_error (attempts : nat) (w : World) (e : JsError) :
  poll_error (backend (length (requests w))) = Some e ->
  checkStatus attempts w = (Rejected e, final None w).
Proof.
  intros He. unfold checkStatus, final, last_poll.
  rewrite ReportsService.checkStatus_unfold_eq. unfold ReportsService.checkStatus_unfold.
  unfold getReport, fetch. unfold poll_error in He.
  destruct (backend (length (requests w))) as [|r]; simpl.
  - injection He as <-. reflexivity.
  - destruct (handleResponse r); [discriminate|]. injection He as <-. reflexivity.
Qed.

(** The call reaches its poll number [n] when the [n] polls before it
    found the report pending and [n] does not exceed [maxAttempts]. *)
Lemma pollReportStatus_reaches (n : nat) (w : World) :
  (n <= maxAttempts)%nat ->
  (forall k, (length (requests w) <= k < length (requests w) + n)%nat ->
             pending (backend k) = true) ->
  exists wn,
    pollReportStatus baseURL backend reportId onStatusUpdate maxAttempts w
    = checkStatus n wn
    /\ length (requests wn) = (length (requests w) + n)%nat
    /\ timers wn = (timers w ++ 3000 :: repeat 5000 n)%list
    /\ updates wn
       = (updates w ++ if onStatusUpdate
                       then reports_of backend (length (requests w)) n else [])%list.
Proof.
  intros Hn Hpend. exists (after n (setTimeout 3000 w)).
  destruct (after_pending_world n (setTimeout 3000 w) Hpend) as (Hr & Ht & Hu).
  split; [exact (checkStatus_skips_pending n 0 (setTimeout 3000 w) Hn Hpend)|].
  split; [exact Hr|]. split; [|exact Hu].
  rewrite Ht. simpl. rewrite <- app_assoc. reflexivity.
Qed.

(** The polling resolves on the first poll that finds the report
    'completed': with that report, after one request per poll, one call
    of the callback per poll in order, and no timer after it. *)
Theorem poll_resolves_on_first_completed (n : nat) (w : World) :
  (n <= maxAttempts)%nat ->
  (forall k, (length (requests w) <= k < length (requests w) + n)%nat ->
             pending (backend k) = true) ->
  has_status "completed" (backend (length (requests w) + n)%nat) = true ->
  let r := pollReportStatus baseURL backend reportId onStatusUpdate maxAttempts w in
  fst r = Resolved (report_of (backend (length (requests w) + n)%nat))
  /\ length (requests (snd r)) = (length (requests w) + n + 1)%nat
  /\ timers (snd r) = (timers w ++ 3000 :: repeat 5000 n)%list
  /\ updates (snd r)
     = (updates w ++ if onStatusUpdate
                     then reports_of backend (length (requests w)) (S n) else [])%list.
Proof.
  intros Hn Hpend Hdone r. subst r.
  destruct (pollReportStatus_reaches n w Hn Hpend) as (wn & -> & Hr & Ht & Hu).
  rewrite <- Hr in Hdone. rewrite (checkStatus_completed n wn Hdone). cbn [fst snd].
  destruct (final_world (Some (report_of (backend (length (requests wn))))) wn)
    as (Hr' & Ht' & Hu').
  rewrite Hr', Ht', Hu', Hr, Ht, Hu, reports_of_succ.
  split; [reflexivity|]. split; [lia|]. split; [reflexivity|].
  rewrite <- app_assoc. destruct onStatusUpdate; [reflexivity|].
  rewrite !app_nil_r. reflexivity.
Qed.

(** The polling rejects on the first poll that finds the report
    'failed', with the report's [error_message] when it has one that is
    not falsy and with 'Report generation failed' otherwise; no poll
    follows. *)
Theorem poll_rejects_on_first_failed (n : nat) (w : World) :
  (n <= maxAttempts)%nat ->
  (forall k, (length (requests w) <= k < length (requests w) + n)%nat ->
             pending (backend k) = true) ->
  has_status "failed" (backend (length (requests w) + n)%nat) = true ->
  let r := pollReportStatus baseURL backend reportId onStatusUpdate maxAttempts w in
  (exists message,
      get_prop (report_of (backend (length (requests w) + n)%nat)) "error_message" = Ok message
      /\ fst r = Rejected (ErrorMsg (or message (JStr "Report generation failed"))))
  /\ length (requests (snd r)) = (length (requests w) + n + 1)%nat
  /\ timers (snd r) = (timers w ++ 3000 :: repeat 5000 n)%list.
Proof.
  intros Hn Hpend Hfailed r. subst r.
  destruct (pollReportStatus_reaches n w Hn Hpend) as (wn & -> & Hr & Ht & Hu).
  rewrite <- Hr in Hfailed |- *.
  destruct (checkStatus_failed n wn Hfailed) as (message & Hmsg & ->). cbn [fst snd].
  destruct (final_world (Some (report_of (backend (length (requests wn))))) wn)
    as (Hr' & Ht' & _).
  rewrite Hr', Ht', Ht. split; [eauto|]. split; [lia|reflexivity].
Qed.

(** A poll whose request fails (no answer, a status outside 2xx, a body
    that is not JSON) ends the polling at once: the promise rejects with
    that error, the callback is not called for that poll and nothing is
    retried. *)
Theorem poll_transport_error_is_fatal (n : nat) (w : World) (e : JsError) :
  (n <= maxAttempts)%nat ->
  (forall k, (length (requests w) <= k < length (requests w) + n)%nat ->
             pending (backend k) = true) ->
  poll_error (backend (length (requests w) + n)%nat) = Some e ->
  let r := pollReportStatus baseURL backend reportId onStatusUpdate maxAttempts w in
  fst r = Rejected e
  /\ length (requests (snd r)) = (length (requests w) + n + 1)%nat
  /\ timers (snd r) = (timers w ++ 3000 :: repeat 5000 n)%list
  /\ updates (snd r)
     = (updates w ++ if onStatusUpdate
                     then reports_of backend (length (requests w)) n else [])%list.
Proof.
  intros Hn Hpend Herr r. subst r.
  destruct (pollReportStatus_reaches n w Hn Hpend) as (wn & -> & Hr & Ht & Hu).
  rewrite <- Hr in Herr. rewrite (checkStatus_transport_error n wn e Herr). cbn [fst snd].
  destruct (final_world None wn) as (Hr' & Ht' & Hu').
  rewrite Hr', Ht', Hu', Hr, Ht, Hu, app_nil_r.
  split; [reflexivity|]. split; [lia|]. split; reflexivity.
Qed.


Lemma getReport_one_poll (w : World) :
  one_poll w (snd (getReport baseURL backend reportId w)).
Proof.
  rewrite (getReport_world baseURL backend reportId). unfold one_poll, fetch. simpl.
  rewrite length_app. simpl. repeat split; lia.
Qed.

Lemma call_onStatusUpdate_one_poll (report : JsVal) (w w1 : World) :
  one_poll w w1 -> updates w1 = updates w ->
  one_poll w (call_onStatusUpdate onStatusUpdate report w1).
Proof.
  unfold one_poll, call_onStatusUpdate, notify.
  intros (Hr & Ht & Hu & Hl & Hs & Hh) Hsame.
  destruct onStatusUpdate; simpl; rewrite ?length_app; simpl; rewrite ?Hsame;
    repeat split; try assumption; lia.
Qed.

(** One run of [checkStatus], whatever the backend answers: it settles
    after one poll, or it has attempts left and runs again five seconds
    after one poll. *)
Lemma checkStatus_one_run (attempts : nat) (w : World) :
  (exists w1, one_poll w w1 /\ snd (checkStatus attempts w) = w1)
  \/ ((attempts < maxAttempts)%nat
      /\ exists w1, one_poll w w1
                    /\ checkStatus attempts w
                       = checkStatus (S attempts) (setTimeout 5000 w1)).
Proof.
  unfold checkStatus.
  rewrite ReportsService.checkStatus_unfold_eq. unfold ReportsService.checkStatus_unfold.
  pose proof (getReport_one_poll w) as Hone.
  assert (Hupd : updates (snd (getReport baseURL backend reportId w)) = updates w).
  { rewrite (getReport_world baseURL backend reportId). reflexivity. }
  destruct (getReport baseURL backend reportId w) as [[report|e] w1]; simpl in *.
  - pose proof (call_onStatusUpdate_one_poll report w w1 Hone Hupd) as Hcb.
    destruct (get_prop report "status") as [st|e]; simpl; [|left; eauto].
    destruct (is_str st "completed"); simpl; [left; eauto|].
    destruct (is_str st "failed"); simpl; [left; eauto|].
    destruct (le_lt_dec maxAttempts attempts); simpl; [left; eauto|].
    right. split; [assumption|]. eauto.
  - left. eauto.
Qed.

Lemma checkStatus_bounded (d : nat) :
  forall (attempts : nat) (w : World),
    (maxAttempts - attempts)%nat = d ->
    exists k,
      (k <= d)%nat
      /\ length (requests (snd (checkStatus attempts w))) = (length (requests w) + S k)%nat
      /\ timers (snd (checkStatus attempts w)) = (timers w ++ repeat 5000 k)%list
      /\ (length (updates w) <= length (updates (snd (checkStatus attempts w)))
          <= length (updates w) + S k)%nat
      /\ localStorage (snd (checkStatus attempts w)) = localStorage w
      /\ sessionStorage (snd (checkStatus attempts w)) = sessionStorage w
      /\ href (snd (checkStatus attempts w)) = href w.
Proof.
  induction d as [|d IH]; intros attempts w Hd;
    destruct (checkStatus_one_run attempts w)
      as [(w1 & Hone & Hw1)|(Hlt & w1 & Hone & Hrun)]; try lia.
  - exists 0%nat. rewrite Hw1. destruct Hone as (Hr & Ht & Hu & Hl & Hs & Hh).
    rewrite Hr, Ht, Hl, Hs, Hh, app_nil_r. repeat split; lia.
  - exists 0%nat. rewrite Hw1. destruct Hone as (Hr & Ht & Hu & Hl & Hs & Hh).
    rewrite Hr, Ht, Hl, Hs, Hh, app_nil_r. repeat split; lia.
  - destruct (IH (S attempts) (setTimeout 5000 w1)) as (k & Hk & Hr' & Ht' & Hu' & Hl' & Hs' & Hh');
      [lia|].
    destruct Hone as (Hr & Ht & Hu & Hl & Hs & Hh).
    exists (S k). rewrite Hrun, Hr', Ht', Hl', Hs', Hh'. simpl in *.
    rewrite Hr, Ht, Hl, Hs, Hh, <- app_assoc. repeat split; try lia. 
Qed.

(** Whatever the backend answers, one call of the polling sends between
    1 and [maxAttempts + 1] requests, waits 3 seconds before the first
    and 5 seconds between two of them, calls the callback at most once
    per request, and leaves the storages and the location alone. *)
Theorem poll_is_bounded (w : World) :
  let r := pollReportStatus baseURL backend reportId onStatusUpdate maxAttempts w in
  exists k,
    (k <= maxAttempts)%nat
    /\ length (requests (snd r)) = (length (requests w) + S k)%nat
    /\ timers (snd r) = (timers w ++ 3000 :: repeat 5000 k)%list
    /\ (length (updates w) <= length (updates (snd r)) <= length (updates w) + S k)%nat
    /\ localStorage (snd r) = localStorage w
    /\ sessionStorage (snd r) = sessionStorage w
    /\ href (snd r) = href w.
Proof.
  intros r. subst r. unfold pollReportStatus.
  destruct (checkStatus_bounded maxAttempts 0 (setTimeout 3000 w) (Nat.sub_0_r _))
    as (k & Hk & Hr & Ht & Hu & Hl & Hs & Hh).
  exists k. split; [exact Hk|]. split; [exact Hr|]. split.
  - unfold checkStatus in Ht. rewrite Ht. simpl. rewrite <- app_assoc. reflexivity.
  - repeat split; assumption || apply Hu.
Qed.


End ServicePollingOutcomes.

Lemma poll_resolves_on_first_completed_witness :
  let backend := scripted [report_with "pending"; report_with "analyzing";
                           report_with "completed"] in
  let r := ReportsService.pollReportStatus "/api" backend "7" true 60 empty_world in
  fst r = Resolved (report_of (backend 2%nat))
  /\ length (requests (snd r)) = 3%nat
  /\ timers (snd r) = [3000; 5000; 5000]
  /\ updates (snd r) = reports_of backend 0 3.
Proof.
  apply (poll_resolves_on_first_completed "/api"
           (scripted [report_with "pending"; report_with "analyzing";
                      report_with "completed"]) "7" true 60 2 empty_world).
  - lia.
  - intros k Hk. destruct k as [|[|k]]; [reflexivity|reflexivity|simpl in Hk; lia].
  - reflexivity.
Defined.

Lemma poll_rejects_on_first_failed_witness :
  let backend :=
    scripted [report_with "processing";
              Responded (mkResponse 200
                (Some (JObj [("status", JStr "failed"); ("error_message", JStr "disk full")])))] in
  let r := ReportsService.pollReportStatus "/api" backend "7" true 60 empty_world in
  (exists message,
      get_prop (report_of (backend 1%nat)) "error_message" = Ok message
      /\ fst r = Rejected (ErrorMsg (or message (JStr "Report generation failed"))))
  /\ length (requests (snd r)) = 2%nat
  /\ timers (snd r) = [3000; 5000].
Proof.
  apply (poll_rejects_on_first_failed "/api"
           (scripted [report_with "processing";
                      Responded (mkResponse 200
                        (Some (JObj [("status", JStr "failed");
                                     ("error_message", JStr "disk full")])))])
           "7" true 60 1 empty_world).
  - lia.
  - intros k Hk. destruct k as [|k]; [reflexivity|simpl in Hk; lia].
  - reflexivity.
Defined.

Lemma poll_transport_error_is_fatal_witness :
  let backend := scripted [report_with "processing"; Responded (mkResponse 503 None)] in
  let r := ReportsService.pollReportStatus "/api" backend "7" true 60 empty_world in
  fst r = Rejected (ErrorMsg (JStr "HTTP error! status: 503"))
  /\ length (requests (snd r)) = 2%nat
  /\ timers (snd r) = [3000; 5000]
  /\ updates (snd r) = reports_of backend 0 1.
Proof.
  apply (poll_transport_error_is_fatal "/api"
           (scripted [report_with "processing"; Responded (mkResponse 503 None)])
           "7" true 60 1 empty_world).
  - lia.
  - intros k Hk. destruct k as [|k]; [reflexivity|simpl in Hk; lia].
  - reflexivity.
Defined.

(** ** More on the transport client of config/api.js *)
Section TransportOutcomes.

Import ApiConfig.

Variable BASE_URL : string.
Variable backend : Backend.

Local Arguments le_lt_dec : simpl never.

Lemma attempt_world (url method : string) (body : option JsVal) (w : World) :
  length (requests (snd (attempt backend url method body w))) = S (length (requests w))
  /\ timers (snd (attempt backend url method body w)) = timers w.
Proof.
  unfold attempt, fetch. destruct (backend (length (requests w))) as [|r].
  - simpl. rewrite length_app. simpl. split; [lia|reflexivity].
  - match goal with
    | |- context [handleApiResponse r ?w1] =>
        destruct (handleApiResponse_requests r w1) as [Hr Ht]; rewrite Hr, Ht
    end.
    simpl. rewrite length_app. simpl. split; [lia|reflexivity].
Qed.

(** An attempt that gets a 2xx answer with a JSON body returns the body. *)
Lemma attempt_succeeds (url method : string) (body : option JsVal) (w : World)
  (r : Response) (v : JsVal) :
  backend (length (requests w)) = Responded r -> ok r = true -> json r = Some v ->
  fst (attempt backend url method body w) = Ok v.
Proof.
  intros Ho Hok Hjson. unfold attempt, fetch, handleApiResponse, read_json.
  rewrite Ho, Hok, Hjson. reflexivity.
Qed.

Lemma fetchWithRetry_returned (url method : string) (body : option JsVal)
  (retryCount : nat) (w : World) (v : JsVal) :
  fst (attempt backend url method body w) = Ok v ->
  fetchWithRetry backend url method body retryCount w
  = (Ok v, snd (attempt backend url method body w)).
Proof.
  intros Hv. rewrite fetchWithRetry_unfold_eq. unfold fetchWithRetry_unfold.
  destruct (attempt backend url method body w) as [res w1]. simpl in Hv. subst res.
  reflexivity.
Qed.

Lemma fetchWithRetry_first_success (url method : string) (body : option JsVal)
  (r : Response) (v : JsVal) (n : nat) :
  forall (retryCount : nat) (w : World),
    (retryCount + n <= RETRY_ATTEMPTS)%nat ->
    (forall k, (length (requests w) <= k < length (requests w) + n)%nat ->
               failing (backend k) = true) ->
    backend (length (requests w) + n)%nat = Responded r -> ok r = true -> json r = Some v ->
    fst (fetchWithRetry backend url method body retryCount w) = Ok v
    /\ length (requests (snd (fetchWithRetry backend url method body retryCount w)))
       = (length (requests w) + n + 1)%nat
    /\ timers (snd (fetchWithRetry backend url method body retryCount w))
       = (timers w ++ map retry_delay (seq retryCount n))%list.
Proof.
  induction n as [|n IH]; intros retryCount w Hle Hfail Ho Hok Hjson;
    destruct (attempt_world url method body w) as [Hn Ht].
  - rewrite Nat.add_0_r in Ho.
    rewrite (fetchWithRetry_returned url method body retryCount w v
               (attempt_succeeds url method body w r v Ho Hok Hjson)).
    cbn [fst snd]. rewrite Hn, Ht, app_nil_r. split; [reflexivity|]. split; [lia|reflexivity].
  - destruct (attempt_fails backend url method body w) as (e & He & _ & _);
      [apply Hfail; lia|].
    rewrite (fetchWithRetry_caught backend url method body retryCount w e He).
    destruct (le_lt_dec RETRY_ATTEMPTS retryCount) as [Hge|Hlt]; [lia|].
    set (w1 := setTimeout (retry_delay retryCount) (snd (attempt backend url method body w))).
    assert (Hlen : length (requests w1) = S (length (requests w))) by exact Hn.
    destruct (IH (S retryCount) w1) as (Hv & Hn1 & Ht1); try assumption.
    + lia.
    + intros k Hk. apply Hfail. rewrite Hlen in Hk. lia.
    + rewrite Hlen. rewrite <- Ho. f_equal. lia.
    + split; [exact Hv|]. rewrite Hn1, Ht1, Hlen. split; [lia|].
      subst w1. simpl timers. rewrite Ht, <- app_assoc. reflexivity.
Qed.

(** The first attempt that succeeds ends [fetchWithRetry]: after [n]
    failed attempts ([n] at most 3) and a 2xx answer with a JSON body,
    the body is returned, [n + 1] requests have been sent and the waits
    were 1000, 2000, ... ms, one for each failure. *)
Theorem retry_returns_first_success (url method : string) (body : option JsVal)
  (r : Response) (v : JsVal) (n : nat) (w : World) :
  (n <= 3)%nat ->
  (forall k, (length (requests w) <= k < length (requests w) + n)%nat ->
             failing (backend k) = true) ->
  backend (length (requests w) + n)%nat = Responded r -> ok r = true -> json r = Some v ->
  fst (fetchWithRetry backend url method body 0 w) = Ok v
  /\ length (requests (snd (fetchWithRetry backend url method body 0 w)))
     = (length (requests w) + n + 1)%nat
  /\ timers (snd (fetchWithRetry backend url method body 0 w))
     = (timers w ++ firstn n [1000; 2000; 4000])%list.
Proof.
  intros Hn Hfail Ho Hok Hjson.
  destruct (fetchWithRetry_first_success url method body r v n 0 w Hn Hfail Ho Hok Hjson)
    as (Hv & Hr & Ht).
  split; [exact Hv|]. split; [exact Hr|]. rewrite Ht. f_equal.
  destruct n as [|[|[|[|n]]]]; try reflexivity. lia.
Qed.

Lemma fetchWithRetry_bounded (url method : string) (body : option JsVal) (d : nat) :
  forall (retryCount : nat) (w : World),
    (RETRY_ATTEMPTS - retryCount)%nat = d ->
    exists k,
      (k <= d)%nat
      /\ length (requests (snd (fetchWithRetry backend url method body retryCount w)))
         = (length (requests w) + S k)%nat
      /\ timers (snd (fetchWithRetry backend url method body retryCount w))
         = (timers w ++ map retry_delay (seq retryCount k))%list
      /\ (forall e, fst (fetchWithRetry backend url method body retryCount w) = Threw e ->
                    k = d).
Proof.
  induction d as [|d IH]; intros retryCount w Hd;
    destruct (attempt_world url method body w) as [Hn Ht];
    destruct (fst (attempt backend url method body w)) as [v|e] eqn:Hres.
  - exists 0%nat. rewrite (fetchWithRetry_returned url method body retryCount w v Hres).
    cbn [fst snd]. rewrite Hn, Ht, app_nil_r. repeat split; try lia; try discriminate.
  - exists 0%nat. rewrite (fetchWithRetry_caught backend url method body retryCount w e Hres).
    destruct (le_lt_dec RETRY_ATTEMPTS retryCount); [|lia].
    cbn [fst snd]. rewrite Hn, Ht, app_nil_r. repeat split; lia.
  - exists 0%nat. rewrite (fetchWithRetry_returned url method body retryCount w v Hres).
    cbn [fst snd]. rewrite Hn, Ht, app_nil_r. repeat split; try lia; try discriminate.
  - rewrite (fetchWithRetry_caught backend url method body retryCount w e Hres).
    destruct (le_lt_dec RETRY_ATTEMPTS retryCount); [lia|].
    set (w1 := setTimeout (retry_delay retryCount) (snd (attempt backend url method body w))).
    assert (Hlen : length (requests w1) = S (length (requests w))) by exact Hn.
    destruct (IH (S retryCount) w1) as (k & Hk & Hr1 & Ht1 & He1); [lia|].
    exists (S k). rewrite Hr1, Ht1, Hlen. split; [lia|]. split; [lia|]. split.
    + subst w1. simpl timers. rewrite Ht, <- app_assoc. reflexivity.
    + intros e' He'. rewrite (He1 e' He'). reflexivity.
Qed.

(** Whatever the backend answers, [fetchWithRetry] sends at most 4
    requests, waits 1000, 2000, 4000 ms between them in this order, and
    throws only when all 4 have failed. *)
Theorem retry_is_bounded (url method : string) (body : option JsVal) (w : World) :
  exists k,
    (k <= 3)%nat
    /\ length (requests (snd (fetchWithRetry backend url method body 0 w)))
       = (length (requests w) + S k)%nat
    /\ timers (snd (fetchWithRetry backend url method body 0 w))
       = (timers w ++ firstn k [1000; 2000; 4000])%list
    /\ (forall e, fst (fetchWithRetry backend url method body 0 w) = Threw e -> k = 3%nat).
Proof.
  destruct (fetchWithRetry_bounded url method body 3 0 w eq_refl) as (k & Hk & Hr & Ht & He).
  exists k. split; [exact Hk|]. split; [exact Hr|]. split; [|exact He].
  rewrite Ht. f_equal. destruct k as [|[|[|[|k]]]]; try reflexivity. lia.
Qed.

(** Only a 401 touches the session: for any other status
    [handleApiResponse] leaves the world as it is, and [fetchWithAuth]
    returns the response as it came, having recorded its request and
    nothing else. *)
Theorem only_401_clears_session
  (url method : string) (body : option JsVal) (r : Response) (w : World) :
  backend (length (requests w)) = Responded r ->
  status r <> 401 ->
  snd (handleApiResponse r w) = w
  /\ fst (fetchWithAuth BASE_URL backend url method body w) = Ok r
  /\ localStorage (snd (fetchWithAuth BASE_URL backend url method body w)) = localStorage w
  /\ sessionStorage (snd (fetchWithAuth BASE_URL backend url method body w))
     = sessionStorage w
  /\ href (snd (fetchWithAuth BASE_URL backend url method body w)) = href w
  /\ length (requests (snd (fetchWithAuth BASE_URL backend url method body w)))
     = S (length (requests w)).
Proof.
  intros Ho Hs. apply Z.eqb_neq in Hs. split.
  - unfold handleApiResponse. rewrite Hs.
    destruct (negb (ok r)); [|reflexivity].
    repeat match goal with
           | |- context [if ?c then _ else _] => destruct c
           end; reflexivity.
  - unfold fetchWithAuth, fetch. rewrite Ho, Hs. simpl. rewrite length_app. simpl.
    repeat split. lia.
Qed.

(** For the statuses that have a message of their own (401, 403, 404,
    413, 422, 429, 500) the error thrown does not depend on the body of
    the response: what the server says is never shown. *)
Theorem fixed_status_messages_ignore_body
  (code : Z) (body1 body2 : option JsVal) (w : World) :
  In code [401; 403; 404; 413; 422; 429; 500] ->
  fst (handleApiResponse (mkResponse code body1) w)
  = fst (handleApiResponse (mkResponse code body2) w)
  /\ exists message, fst (handleApiResponse (mkResponse code body1) w)
                     = Threw (ErrorMsg (JStr message)).
Proof.
  intros Hin. simpl in Hin.
  repeat (destruct Hin as [<-|Hin]; [split; [reflexivity|eexists; reflexivity]|]).
  contradiction.
Qed.

(** For the other statuses outside 2xx [handleApiResponse] changes
    nothing and throws: for a body that is an object, an Error with the
    [detail] of the body, else its [message], else 'Error desconocido';
    for a JSON string, number or boolean, 'Error desconocido'; for a
    body that is not JSON, the connection error; for the JSON [null], a
    TypeError, [error.detail] being read on [null]. *)
Theorem other_statuses_report_server_detail (code : Z) (w : World) :
  (code < 200 \/ 299 < code) ->
  ~ In code [401; 403; 404; 413; 422; 429; 500] ->
  (forall fields,
      handleApiResponse (mkResponse code (Some (JObj fields))) w
      = (Threw (ErrorMsg (or (or (lookup_field "detail" fields) (lookup_field "message" fields))
                             (JStr "Error desconocido"))), w))
  /\ (forall v, is_primitive v = true ->
        handleApiResponse (mkResponse code (Some v)) w
        = (Threw (ErrorMsg (JStr "Error desconocido")), w))
  /\ handleApiResponse (mkResponse code None) w
     = (Threw (ErrorMsg (JStr "Error de conexión con el servidor")), w)
  /\ handleApiResponse (mkResponse code (Some JNull)) w = (Threw TypeError, w).
Proof.
  intros Hout Hnot. simpl in Hnot.
  assert (Hok : forall b, ok (mkResponse code b) = false).
  { intros b. unfold ok. simpl. destruct Hout.
    - replace (200 <=? code) with false by (symmetry; apply Z.leb_gt; lia). reflexivity.
    - replace (code <=? 299) with false by (symmetry; apply Z.leb_gt; lia).
      apply andb_false_r. }
  unfold handleApiResponse. simpl status. simpl json.
  repeat match goal with
         | |- context [code =? ?c] =>
             replace (code =? c) with false by (symmetry; apply Z.eqb_neq; intros ->; tauto)
         end.
  split; [|split; [|split]].
  - intros fields. rewrite Hok. reflexivity.
  - intros v Hv. rewrite Hok. destruct v; try discriminate Hv; reflexivity.
  - rewrite Hok. reflexivity.
  - rewrite Hok. reflexivity.
Qed.

End TransportOutcomes.

(** ** Tokens and sessions across the three clients *)
Section Tokens.

Variable BASE_URL : string.
Variable backend : Backend.

Lemma bearer_of_token (t : string) :
  t <> "" -> ApiConfig.bearer (JStr t) = Some ("Bearer " +:+ t).
Proof.
  intros Hne. unfold ApiConfig.bearer. simpl.
  destruct (String.eqb t "") eqn:E; [apply String.eqb_eq in E; contradiction|reflexivity].
Qed.

Lemma falsy_stored_item (storage : gmap string string) (key : string) :
  storage !! key = None \/ storage !! key = Some "" ->
  truthy (getItem storage key) = false.
Proof. unfold getItem. intros [->| ->]; reflexivity. Qed.

(** The request of [fetchWithAuth] (config/api.js): a relative URL is
    put after the base URL, an absolute one is kept; the bearer token is
    the [access_token] of localStorage when there is a non-empty one,
    else that of sessionStorage, else there is no Authorization header. *)
Theorem fetchWithAuth_request (url method : string) (body : option JsVal) (w : World) :
  exists rq,
    requests (snd (ApiConfig.fetchWithAuth BASE_URL backend url method body w))
    = (requests w ++ [rq])%list
    /\ req_method rq = method /\ req_body rq = body
    /\ req_url rq = (if String.prefix "http" url then url else BASE_URL +:+ url)
    /\ (forall t, localStorage w !! "access_token" = Some t -> t <> "" ->
                  req_authorization rq = Some ("Bearer " +:+ t))
    /\ (localStorage w !! "access_token" = None \/ localStorage w !! "access_token" = Some "" ->
        (forall t, sessionStorage w !! "access_token" = Some t -> t <> "" ->
                   req_authorization rq = Some ("Bearer " +:+ t))
        /\ (sessionStorage w !! "access_token" = None
            \/ sessionStorage w !! "access_token" = Some "" ->
            req_authorization rq = None)).
Proof.
  eexists. split.
  { unfold ApiConfig.fetchWithAuth, fetch.
    destruct (backend (length (requests w))) as [|r]; [reflexivity|].
    destruct (status r =? 401); reflexivity. }
  cbn [req_method req_body req_url req_authorization].
  split; [reflexivity|]. split; [reflexivity|]. split; [reflexivity|]. split.
  - intros t Ht Hne. unfold getItem at 1. rewrite Ht.
    rewrite or_truthy; [apply bearer_of_token; exact Hne|].
    simpl. destruct (String.eqb t "") eqn:E; [apply String.eqb_eq in E; contradiction|].
    reflexivity.
  - intros Hlocal. rewrite (or_falsy _ _ (falsy_stored_item _ _ Hlocal)). split.
    + intros t Ht Hne. unfold getItem. rewrite Ht. apply bearer_of_token. exact Hne.
    + unfold getItem. intros [->| ->]; reflexivity.
Qed.

(** The clean-up of a 401 in config/api.js removes [access_token] and
    [refresh_token], not the item [token] that reportsService.js and
    Reports.jsx send: whatever the answer to [fetchWithAuth], their
    requests carry the same Authorization header after it as before. *)
Theorem session_cleanup_keeps_service_token
  (url method : string) (body : option JsVal) (w : World) :
  let w' := snd (ApiConfig.fetchWithAuth BASE_URL backend url method body w) in
  ReportsService.getHeaders w' = ReportsService.getHeaders w
  /\ ReportsPage.authorization w' = ReportsPage.authorization w
  /\ ReportsService.getHeaders (ApiConfig.clear_session w) = ReportsService.getHeaders w.
Proof.
  assert (Hclear : forall w0, getItem (localStorage (ApiConfig.clear_session w0)) "token"
                              = getItem (localStorage w0) "token").
  { intros w0. unfold ApiConfig.clear_session, getItem. simpl. by simplify_map_eq. }
  intros w'. subst w'.
  unfold ReportsService.getHeaders, ReportsPage.authorization.
  split; [|split]; try (rewrite Hclear; reflexivity);
    unfold ApiConfig.fetchWithAuth, fetch;
    (destruct (backend (length (requests w))) as [|r]; [reflexivity|]);
    (destruct (status r =? 401); [|reflexivity]);
    cbn [snd]; rewrite Hclear; reflexivity.
Qed.

(** [fetchWithAuth] of services/api.js records its request and changes
    nothing else, whatever the answer; on a 401 it throws its
    token-expired error, and [createReport] then rejects with that
    error without looking at the body of the response. *)
Theorem api_service_never_touches_session
  (url method : string) (body : option JsVal) (w : World) :
  let res := ApiService.fetchWithAuth backend url method body w in
  localStorage (snd res) = localStorage w
  /\ sessionStorage (snd res) = sessionStorage w
  /\ href (snd res) = href w
  /\ timers (snd res) = timers w
  /\ length (requests (snd res)) = S (length (requests w))
  /\ (forall r reportData payload,
         backend (length (requests w)) = Responded r -> status r = 401 ->
         ApiService.createReportBody reportData = Ok payload ->
         fst res = Threw ApiService.token_expired
         /\ fst (ApiService.createReport BASE_URL backend reportData w)
            = Threw ApiService.token_expired
         /\ href (snd (ApiService.createReport BASE_URL backend reportData w)) = href w).
Proof.
  intros res. subst res. unfold ApiService.fetchWithAuth, fetch.
  destruct (backend (length (requests w))) as [|r0] eqn:Ho.
  - simpl. rewrite length_app. simpl. repeat split; try lia; congruence.
  - destruct (status r0 =? 401) eqn:Hs; simpl; rewrite length_app; simpl;
      (split; [reflexivity|]); (split; [reflexivity|]); (split; [reflexivity|]);
      (split; [reflexivity|]); (split; [lia|]);
      intros r reportData payload Heq H401 Hbody; injection Heq as <-;
      rewrite H401 in Hs; try discriminate.
    split; [reflexivity|].
    unfold ApiService.createReport, ApiService.fetchWithAuth, fetch.
    rewrite Hbody, Ho, H401. simpl. split; reflexivity.
Qed.

End Tokens.

(** ** More on validation and normalization *)
Section ServiceData.

Import ReportsService.

Lemma includes_truthy (l : list string) (v : JsVal) :
  ~ In "" l -> includes l v = true -> truthy v = true.
Proof.
  intros Hne Hin. unfold includes in Hin. apply existsb_exists in Hin.
  destruct Hin as (x & Hx & Hstr). apply is_str_eq in Hstr. subst v. simpl.
  destruct (String.eqb x "") eqn:E; [|reflexivity].
  apply String.eqb_eq in E. subst x. contradiction.
Qed.

(** A configuration whose title is a string or missing is valid exactly
    when it has no error, that is when its title has 3 characters or
    more once trimmed, its type is one of the four report types and its
    file reference is not falsy; the errors come in the order title,
    type, file. *)
Theorem validate_accepts_exactly (fields : list (string * JsVal)) :
  title_typed (lookup_field "title" fields) ->
  exists v,
    validateReportConfig (JObj fields) = Ok v
    /\ (isValid v = true <-> errors v = [])
    /\ (isValid v = true <->
        (exists s, lookup_field "title" fields = JStr s
                   /\ (3 <= String.length (trim s))%nat)
        /\ includes report_types (lookup_field "type" fields) = true
        /\ truthy (lookup_field "csvFileId" fields) = true)
    /\ sublist (errors v) [title_error; type_error; file_error].
Proof.
  intros Htitle.
  assert (Hshort : exists short,
             (if negb (truthy (lookup_field "title" fields)) then Ok true
              else trimmed_shorter_than_3 (lookup_field "title" fields)) = Ok short
             /\ (short = false <->
                 exists s, lookup_field "title" fields = JStr s
                           /\ (3 <= String.length (trim s))%nat)).
  { destruct Htitle as [[s Hs]|Hfalsy].
    - rewrite Hs. destruct (truthy (JStr s)) eqn:E; simpl.
      + eexists. split; [reflexivity|]. rewrite Nat.ltb_ge. split.
        * intros Hlen. exists s. split; [reflexivity|exact Hlen].
        * intros (s' & Heq & Hlen). injection Heq as <-. exact Hlen.
      + exists true. split; [reflexivity|]. split; [discriminate|].
        intros (s' & Heq & Hlen). injection Heq as <-.
        simpl in E. apply negb_false_iff, String.eqb_eq in E. subst s. simpl in Hlen. lia.
    - rewrite Hfalsy. simpl. exists true. split; [reflexivity|]. split; [discriminate|].
      intros (s' & Heq & Hlen). rewrite Heq in Hfalsy. simpl in Hfalsy.
      apply negb_false_iff, String.eqb_eq in Hfalsy. subst s'. simpl in Hlen. lia. }
  destruct Hshort as (short & Hrule & Hlong).
  eexists. split; [apply (validate_rules fields short Hrule)|]. cbn [isValid errors].
  assert (Htype : negb (truthy (lookup_field "type" fields))
                  || negb (includes report_types (lookup_field "type" fields)) = false
                  <-> includes report_types (lookup_field "type" fields) = true).
  { split.
    - intros H. apply orb_false_iff in H. destruct H as [_ H].
      apply negb_false_iff in H. exact H.
    - intros H. rewrite H, (includes_truthy report_types _) by
        (try exact H; unfold report_types; simpl; intuition discriminate).
      reflexivity. }
  set (bad_type := negb (truthy (lookup_field "type" fields))
                   || negb (includes report_types (lookup_field "type" fields))) in *.
  set (file := truthy (lookup_field "csvFileId" fields)) in *.
  rewrite <- Hlong, <- Htype. clearbody bad_type file. clear Hlong Htype Hrule.
  destruct short, bad_type, file; simpl;
    (split; [intuition congruence|]);
    (split; [intuition congruence|]);
    unfold when; repeat (constructor || apply sublist_nil_l).
Qed.

(** Normalizing anything but [null] and [undefined] returns an object. *)
Lemma extract_returns_object (analysisData reportType : JsVal) :
  analysisData <> JUndefined -> analysisData <> JNull ->
  exists m, extractDashboardMetrics analysisData reportType = Ok (JObj m).
Proof.
  intros Hu Hn.
  assert (Hread : forall k,
             get_prop analysisData k = Ok JUndefined
             \/ exists x, get_prop analysisData k = Ok x).
  { intros k. destruct analysisData; try contradiction; simpl; eauto. }
  unfold extractDashboardMetrics.
  destruct (Hread "basic_metrics") as [Hb|[x Hb]]; rewrite Hb; simpl;
    (destruct (is_str reportType "security");
     [destruct (Hread "security_score") as [Hs|[y Hs]]; rewrite Hs;
      read_basic; simpl; eauto|]);
    (destruct (is_str reportType "performance");
     [destruct (Hread "performance_score") as [Hs|[y Hs]]; rewrite Hs;
      read_basic; simpl; eauto|]);
    (destruct (is_str reportType "cost");
     [destruct (Hread "optimization_score") as [Hs|[y Hs]]; rewrite Hs;
      read_basic; simpl; eauto|]);
    read_basic; simpl; eauto.
Qed.

(** The normalizer throws exactly on a payload that is [null] or
    [undefined], then a TypeError; for every other payload and every
    report type it returns a metrics object. *)
Theorem extract_throws_only_on_nullish (analysisData reportType : JsVal) :
  ((analysisData = JUndefined \/ analysisData = JNull) ->
   extractDashboardMetrics analysisData reportType = Threw TypeError)
  /\ (analysisData <> JUndefined -> analysisData <> JNull ->
      exists m, extractDashboardMetrics analysisData reportType = Ok (JObj m)).
Proof.
  split.
  - intros [->| ->]; reflexivity.
  - apply extract_returns_object.
Qed.

End ServiceData.

(** ** Objects built by the service *)
Section ServiceObjects.

Import ReportsService.

Lemma lookup_set_field (k k' : string) (v : JsVal) (fields : list (string * JsVal)) :
  lookup_field k (set_field k' v fields)
  = if String.eqb k k' then v else lookup_field k fields.
Proof.
  induction fields as [|[k0 v0] rest IH]; simpl.
  - destruct (String.eqb k k'); reflexivity.
  - destruct (String.eqb k' k0) eqn:E; simpl.
    + apply String.eqb_eq in E. subst k0. destruct (String.eqb k k'); reflexivity.
    + rewrite IH. destruct (String.eqb k k0) eqn:E0; [|reflexivity].
      apply String.eqb_eq in E0. subst k0.
      rewrite String.eqb_sym in E. rewrite E. reflexivity.
Qed.

Lemma lookup_spread_from (k : string) (fields : list (string * JsVal))
  (rest : list (string * JsVal)) :
  forall base : list (string * JsVal),
    lookup_field k (fold_left (fun acc kv => set_field (fst kv) (lookup_field (fst kv) fields) acc)
                      rest base)
    = if has_field k rest then lookup_field k fields else lookup_field k base.
Proof.
  induction rest as [|[k0 v0] rest IH]; intros base; simpl; [reflexivity|].
  rewrite IH, lookup_set_field.
  destruct (String.eqb k k0) eqn:E; simpl; [|reflexivity].
  apply String.eqb_eq in E. subst k0. destruct (has_field k rest); reflexivity.
Qed.

Lemma lookup_spread (k : string) (base fields : list (string * JsVal)) :
  lookup_field k (spread base fields)
  = if has_field k fields then lookup_field k fields else lookup_field k base.
Proof. apply lookup_spread_from. Qed.

Lemma lookup_present_or_absent (k : string) (fields : list (string * JsVal)) :
  (if has_field k fields then lookup_field k fields else JUndefined) = lookup_field k fields.
Proof.
  destruct (has_field k fields) eqn:E; [reflexivity|]. symmetry. apply lookup_absent. exact E.
Qed.

(** [formatAnalysisData] never throws: it returns [null] for whatever
    is not an object, and for an object (an array too) an object whose
    [dashboard_metrics] is never falsy: the payload's own when it has
    one, the normalized metrics otherwise. *)
Theorem format_never_throws (now : string) (analysisData reportType : JsVal) :
  exists out,
    formatAnalysisData now analysisData reportType = Ok out
    /\ ((forall fields, analysisData <> JObj fields) ->
        (forall items, analysisData <> JArr items) -> out = JNull)
    /\ (forall fields, analysisData = JObj fields ->
          exists m,
            out = JObj m
            /\ truthy (lookup_field "dashboard_metrics" m) = true
            /\ (truthy (lookup_field "dashboard_metrics" fields) = true ->
                lookup_field "dashboard_metrics" m = lookup_field "dashboard_metrics" fields)
            /\ (truthy (lookup_field "dashboard_metrics" fields) = false ->
                extractDashboardMetrics analysisData reportType
                = Ok (lookup_field "dashboard_metrics" m)))
    /\ (forall items, analysisData = JArr items ->
          exists m, out = JObj m /\ truthy (lookup_field "dashboard_metrics" m) = true).
Proof.
  destruct analysisData as [| |b|n| |s|fields|items];
    try (exists JNull; split; [reflexivity|]; split; [reflexivity|];
         split; intros; discriminate).
  - exists JNull. split; [unfold formatAnalysisData; destruct (truthy (JBool b)); reflexivity|].
    split; [reflexivity|]. split; intros; discriminate.
  - exists JNull. split; [unfold formatAnalysisData; destruct (truthy (JNum n)); reflexivity|].
    split; [reflexivity|]. split; intros; discriminate.
  - exists JNull. split; [unfold formatAnalysisData; destruct (truthy (JStr s)); reflexivity|].
    split; [reflexivity|]. split; intros; discriminate.
  - unfold formatAnalysisData. cbn [truthy typeof_object negb orb spread_val].
    rewrite lookup_spread. cbn [lookup_field String.eqb Ascii.eqb Bool.eqb].
    rewrite lookup_present_or_absent.
    destruct (truthy (lookup_field "dashboard_metrics" fields)) eqn:Hdm; cbn [negb].
    + eexists. split; [reflexivity|]. split; [intros H; exfalso; exact (H fields eq_refl)|].
      split; [|intros; discriminate].
      intros fields' Heq. injection Heq as <-. eexists. split; [reflexivity|].
      rewrite lookup_spread. cbn [lookup_field String.eqb Ascii.eqb Bool.eqb].
      rewrite lookup_present_or_absent.
      split; [exact Hdm|]. split; [reflexivity|]. congruence.
    + destruct (extract_object_total fields reportType) as [metrics Hm]. rewrite Hm. simpl.
      eexists. split; [reflexivity|]. split; [intros H; exfalso; exact (H fields eq_refl)|].
      split; [|intros; discriminate].
      intros fields' Heq. injection Heq as <-. eexists. split; [reflexivity|].
      rewrite lookup_set_field. simpl.
      split; [reflexivity|]. split; [congruence|reflexivity].
  - unfold formatAnalysisData. cbn [truthy typeof_object negb orb spread_val].
    destruct (truthy (lookup_field "dashboard_metrics"
                        (spread [("reportType", reportType); ("generatedAt", JStr now)]
                           (array_props items)))) eqn:Hdm; cbn [negb].
    + eexists. split; [reflexivity|]. split; [intros _ H; exfalso; exact (H items eq_refl)|].
      split; [intros; discriminate|].
      intros items' _. eexists. split; [reflexivity|exact Hdm].
    + destruct (extract_returns_object (JArr items) reportType) as [metrics Hm];
        try discriminate.
      rewrite Hm. simpl.
      eexists. split; [reflexivity|]. split; [intros _ H; exfalso; exact (H items eq_refl)|].
      split; [intros; discriminate|].
      intros items' _. eexists. split; [reflexivity|].
      rewrite lookup_set_field. reflexivity.
Qed.

(** In the object [formatAnalysisData] returns for a payload that is a
    plain object (an array does not spread its [length]) every property
    of the payload other than [dashboard_metrics] keeps its value, also
    [reportType] and [generatedAt]: the report type given as argument
    and the time of the call are there only when the payload has no
    property of that name. *)
Theorem format_keeps_payload (now : string) (fields : list (string * JsVal))
  (reportType : JsVal) :
  exists m,
    formatAnalysisData now (JObj fields) reportType = Ok (JObj m)
    /\ (forall k, k <> "dashboard_metrics" -> has_field k fields = true ->
                  lookup_field k m = lookup_field k fields)
    /\ (has_field "reportType" fields = false -> lookup_field "reportType" m = reportType)
    /\ (has_field "generatedAt" fields = false -> lookup_field "generatedAt" m = JStr now).
Proof.
  assert (Hspread : forall k,
             (has_field k fields = true ->
              lookup_field k (spread [("reportType", reportType); ("generatedAt", JStr now)]
                                fields) = lookup_field k fields)
             /\ (has_field k fields = false ->
                 lookup_field k (spread [("reportType", reportType); ("generatedAt", JStr now)]
                                   fields)
                 = lookup_field k [("reportType", reportType); ("generatedAt", JStr now)])).
  { intros k. rewrite lookup_spread. split; intros ->; reflexivity. }
  unfold formatAnalysisData. cbn [truthy typeof_object negb orb spread_val].
  destruct (negb (truthy (lookup_field "dashboard_metrics"
                            (spread [("reportType", reportType); ("generatedAt", JStr now)]
                               fields)))).
  - destruct (extract_object_total fields reportType) as [metrics Hm]. rewrite Hm. simpl.
    eexists. split; [reflexivity|]. split; [|split].
    + intros k Hk Hin. rewrite lookup_set_field.
      destruct (String.eqb k "dashboard_metrics") eqn:E;
        [apply String.eqb_eq in E; contradiction|].
      apply Hspread. exact Hin.
    + intros Habs. rewrite lookup_set_field. simpl.
      rewrite (proj2 (Hspread "reportType") Habs). reflexivity.
    + intros Habs. rewrite lookup_set_field. simpl.
      rewrite (proj2 (Hspread "generatedAt") Habs). reflexivity.
  - eexists. split; [reflexivity|]. split; [|split].
    + intros k _ Hin. apply Hspread. exact Hin.
    + intros Habs. rewrite (proj2 (Hspread "reportType") Habs). reflexivity.
    + intros Habs. rewrite (proj2 (Hspread "generatedAt") Habs). reflexivity.
Qed.

(** [getReports] reads the page size under [pageSize] (and in
    [filters]): a [page_size] property of its argument changes nothing,
    and without [pageSize] and [filters] the query asks for 20 reports
    a page. *)
Theorem getReports_ignores_page_size (fields : list (string * JsVal)) (size : JsVal) :
  getReportsQuery (JObj (set_field "page_size" size fields)) = getReportsQuery (JObj fields)
  /\ (truthy (lookup_field "pageSize" fields) = false ->
      has_field "filters" fields = false ->
      metric (getReportsQuery (JObj (set_field "page_size" size fields))) "page_size"
      = JNum 20).
Proof.
  assert (Heq : getReportsQuery (JObj (set_field "page_size" size fields))
                = getReportsQuery (JObj fields)).
  { unfold getReportsQuery. simpl. rewrite !lookup_set_field. reflexivity. }
  split; [exact Heq|]. intros Hsize Hfilters. rewrite Heq.
  unfold getReportsQuery. simpl. rewrite (lookup_absent _ _ Hfilters). simpl.
  rewrite (or_falsy _ _ Hsize). reflexivity.
Qed.

Lemma truthy_or_default (v d : JsVal) : truthy d = true -> truthy (or v d) = true.
Proof. intros Hd. unfold or. destruct (truthy v) eqn:E; [exact E|exact Hd]. Qed.

(** On a response outside 2xx [handleResponse] never returns: it
    throws the Error made from the [message] of the body when the body
    is an object with a message that is not falsy, and from the status
    ('HTTP error! status: N') when there is no such message or the body
    is not JSON; when the body is the JSON [null] a TypeError is thrown
    instead, [error.message] being read on [null], and the status is
    lost. *)
Theorem handleResponse_rejects_non_2xx (r : Response) :
  ok r = false ->
  (exists e, handleResponse r = Threw e)
  /\ (json r = Some JNull -> handleResponse r = Threw TypeError)
  /\ (json r = None ->
      handleResponse r
      = Threw (ErrorMsg (JStr ("HTTP error! status: " +:+ pretty (status r)))))
  /\ (forall fields, json r = Some (JObj fields) ->
        handleResponse r
        = Threw (ErrorMsg (or (lookup_field "message" fields)
                              (JStr ("HTTP error! status: " +:+ pretty (status r)))))).
Proof.
  intros Hok. unfold handleResponse. rewrite Hok. simpl.
  split; [|split; [|split]].
  - destruct (json r) as [[]|]; simpl; eauto.
  - intros ->. reflexivity.
  - intros ->. reflexivity.
  - intros fields ->. reflexivity.
Qed.

(** An upload resolves exactly when the request ends with a [load]
    event, a status from 200 to 299 and a JSON body, and then with that
    body.  Every other end rejects: a 2xx load whose body does not parse
    with 'Invalid response format'; a load with another status with the
    Error made from the [message] of the body when the body is an
    object with a message that is not falsy, and with 'Upload failed
    with status N' otherwise, also when the body is [null] or does not
    parse; an [error] and a [timeout] with their own messages. *)
Theorem upload_settles_once (ev : XhrEvent) :
  (forall v, uploadCSVFile_settles ev = Resolved v <->
             exists code, ev = XhrLoad code (Some v) /\ 200 <= code < 300)
  /\ (forall code body, ev = XhrLoad code body -> ~ (200 <= code < 300) ->
        (body = None \/ body = Some JNull ->
         uploadCSVFile_settles ev = Rejected (upload_failed code))
        /\ (forall fields, body = Some (JObj fields) ->
              uploadCSVFile_settles ev
              = Rejected (ErrorMsg (or (lookup_field "message" fields)
                                       (JStr ("Upload failed with status " +:+ pretty code))))))
  /\ (forall code, ev = XhrLoad code None -> 200 <= code < 300 ->
        uploadCSVFile_settles ev = Rejected (ErrorMsg (JStr "Invalid response format")))
  /\ (ev = XhrError ->
      uploadCSVFile_settles ev = Rejected (ErrorMsg (JStr "Network error during upload")))
  /\ (ev = XhrTimeout ->
      uploadCSVFile_settles ev = Rejected (ErrorMsg (JStr "Upload timeout"))).
Proof.
  assert (Hin : forall code, 200 <= code < 300 -> (200 <=? code) && (code <? 300) = true).
  { intros code [Hlo Hhi]. apply andb_true_iff. split; [apply Z.leb_le|apply Z.ltb_lt];
      assumption. }
  assert (Hout : forall code, ~ (200 <= code < 300) ->
                              (200 <=? code) && (code <? 300) = false).
  { intros code Hno. destruct ((200 <=? code) && (code <? 300)) eqn:E; [|reflexivity].
    apply andb_true_iff in E. destruct E as [Hlo Hhi].
    apply Z.leb_le in Hlo. apply Z.ltb_lt in Hhi. exfalso. apply Hno. lia. }
  split; [|split; [|split; [|split]]].
  - intros v. split.
    + destruct ev as [code [body|]| |]; simpl; try discriminate.
      * destruct ((200 <=? code) && (code <? 300)) eqn:Hcode.
        -- intros H. injection H as <-. exists code. split; [reflexivity|].
           apply andb_true_iff in Hcode. destruct Hcode as [Hlo Hhi].
           apply Z.leb_le in Hlo. apply Z.ltb_lt in Hhi. lia.
        -- destruct (get_prop body "message"); discriminate.
      * destruct ((200 <=? code) && (code <? 300)); discriminate.
    + intros (code & -> & Hcode). simpl. rewrite (Hin code Hcode). reflexivity.
  - intros code body -> Hcode. simpl. rewrite (Hout code Hcode). split.
    + intros [->| ->]; reflexivity.
    + intros fields ->. reflexivity.
  - intros code -> Hcode. simpl. rewrite (Hin code Hcode). reflexivity.
  - intros ->. reflexivity.
  - intros ->. reflexivity.
Qed.

(** The two [createReport] of the code base send the same inclusion
    flags exactly when all three are [true]: reportsService.js sends
    the caller's flags as they are, services/api.js sends [true] for
    any flag that is [false] or not given. *)
Theorem createReport_variants_agree_iff (fields : list (string * JsVal)) :
  has_field "configuration" fields = false ->
  boolean_or_absent (lookup_field "includeGraphics" fields) = true ->
  boolean_or_absent (lookup_field "includeDetailedTables" fields) = true ->
  boolean_or_absent (lookup_field "includeRecommendations" fields) = true ->
  metric (createReportBody (JObj fields)) "configuration"
  = JObj [ ("include_graphics", lookup_field "includeGraphics" fields);
           ("include_detailed_tables", lookup_field "includeDetailedTables" fields);
           ("include_recommendations", lookup_field "includeRecommendations" fields) ]
  /\ (metric (createReportBody (JObj fields)) "configuration"
      = metric (ApiService.createReportBody (JObj fields)) "configuration"
      <-> lookup_field "includeGraphics" fields = JBool true
          /\ lookup_field "includeDetailedTables" fields = JBool true
          /\ lookup_field "includeRecommendations" fields = JBool true).
Proof.
  intros Hcfg Hg Ht Hr. apply lookup_absent in Hcfg.
  split; [reflexivity|].
  unfold createReportBody, ApiService.createReportBody. simpl. rewrite Hcfg. simpl.
  destruct (lookup_field "includeGraphics" fields) as [| |[|]| | | | |]; try discriminate Hg;
    destruct (lookup_field "includeDetailedTables" fields) as [| |[|]| | | | |];
      try discriminate Ht;
    destruct (lookup_field "includeRecommendations" fields) as [| |[|]| | | | |];
      try discriminate Hr;
    simpl; split; intros H; try discriminate H; try reflexivity;
    try (destruct H as (H1 & H2 & H3); discriminate); repeat split.
Qed.

End ServiceObjects.

(** ** How the page's polling ends *)
Section PagePollingOutcomes.

Import ReportsPage.

Variable backend : Backend.
Variable reportId : string.

Local Arguments le_lt_dec : simpl never.

Let asked := asked backend reportId.

(** The page's loop reaches its poll number [n] when the [n] polls
    before it found the report pending. *)
Lemma page_reaches (n : nat) :
  forall (attempts : nat) (pg : Page) (w : World),
    (attempts + n <= maxAttempts)%nat ->
    (forall k, (length (requests w) <= k < length (requests w) + n)%nat ->
               pending (backend k) = true) ->
    exists wn,
      checkStatus backend reportId attempts pg w
      = checkStatus backend reportId (attempts + n) pg wn
      /\ length (requests wn) = (length (requests w) + n)%nat
      /\ timers wn = (timers w ++ repeat 5000 n)%list.
Proof.
  induction n as [|n IH]; intros attempts pg w Hle Hpend.
  - exists w. rewrite !Nat.add_0_r, app_nil_r. repeat split.
  - assert (Hp : pending (backend (length (requests w))) = true) by (apply Hpend; lia).
    rewrite (page_checkStatus_pending_step backend reportId attempts pg w Hp).
    destruct (le_lt_dec maxAttempts attempts) as [Hge|Hlt]; [lia|].
    assert (Hlen : length (requests (setTimeout 5000 (asked w))) = S (length (requests w))).
    { simpl. apply (asked_requests backend reportId). }
    destruct (IH (S attempts) pg (setTimeout 5000 (asked w))) as (wn & Hrun & Hr & Ht).
    + lia.
    + intros k Hk. apply Hpend. rewrite Hlen in Hk. lia.
    + exists wn. replace (attempts + S n)%nat with (S attempts + n)%nat by lia.
      split; [exact Hrun|]. rewrite Hr, Ht, Hlen. split; [lia|].
      simpl. rewrite <- app_assoc. reflexivity.
Qed.

(** Refreshing the list of reports sends one request and writes
    nothing of the page but the list. *)
Lemma fetchReports_frame (pg : Page) (w : World) :
  isGenerating (fst (fetchReports backend pg w)) = isGenerating pg
  /\ generationProgress (fst (fetchReports backend pg w)) = generationProgress pg
  /\ generatedReport (fst (fetchReports backend pg w)) = generatedReport pg
  /\ progressInterval (fst (fetchReports backend pg w)) = progressInterval pg
  /\ length (requests (snd (fetchReports backend pg w))) = S (length (requests w))
  /\ timers (snd (fetchReports backend pg w)) = timers w.
Proof.
  unfold fetchReports, fetch.
  destruct (backend (length (requests w))) as [|r];
    [|destruct (ok r); [destruct (Js.bind (read_json r) _)|]];
    simpl; rewrite length_app; simpl; repeat split; lia.
Qed.

(** A poll answered with a status outside 2xx ends the page's loop and
    writes nothing: the page is left as it was, still generating if it
    was, with no timer set and no further request. *)
Theorem page_poll_stalls_on_http_error (n : nat) (r : Response) (pg : Page) (w : World) :
  (n <= maxAttempts)%nat ->
  (forall k, (length (requests w) <= k < length (requests w) + n)%nat ->
             pending (backend k) = true) ->
  backend (length (requests w) + n)%nat = Responded r ->
  ok r = false ->
  fst (pollReportStatus backend reportId pg w) = pg
  /\ length (requests (snd (pollReportStatus backend reportId pg w)))
     = (length (requests w) + n + 1)%nat
  /\ timers (snd (pollReportStatus backend reportId pg w))
     = (timers w ++ 3000 :: repeat 5000 n)%list.
Proof.
  intros Hn Hpend Ho Hok. unfold pollReportStatus.
  destruct (page_reaches n 0 pg (setTimeout 3000 w) Hn Hpend) as (wn & -> & Hr & Ht).
  simpl in Hr, Ht. rewrite <- Hr in Ho.
  rewrite checkStatus_unfold_eq. unfold checkStatus_unfold, fetch.
  rewrite Ho. simpl. rewrite Hok. simpl. rewrite length_app, Hr, Ht. simpl.
  split; [reflexivity|]. split; [lia|]. rewrite <- app_assoc. reflexivity.
Qed.

(** On the first poll that finds the report 'completed' the page shows
    it: progress 100, the report kept, generation over, the progress
    interval cleared; one more request refreshes the list of reports. *)
Theorem page_poll_completes (n : nat) (pg : Page) (w : World) :
  (n <= maxAttempts)%nat ->
  (forall k, (length (requests w) <= k < length (requests w) + n)%nat ->
             pending (backend k) = true) ->
  has_status "completed" (backend (length (requests w) + n)%nat) = true ->
  let res := pollReportStatus backend reportId pg w in
  isGenerating (fst res) = false
  /\ generationProgress (fst res) = 100
  /\ generatedReport (fst res) = report_of (backend (length (requests w) + n)%nat)
  /\ progressInterval (fst res) = false
  /\ length (requests (snd res)) = (length (requests w) + n + 2)%nat
  /\ timers (snd res) = (timers w ++ 3000 :: repeat 5000 n)%list.
Proof.
  intros Hn Hpend Hdone res. subst res. unfold pollReportStatus.
  destruct (page_reaches n 0 pg (setTimeout 3000 w) Hn Hpend) as (wn & -> & Hr & Ht).
  simpl in Hr, Ht. rewrite <- Hr in Hdone |- *.
  assert (Hrun : checkStatus backend reportId n pg wn
                 = fetchReports backend
                     (completed (report_of (backend (length (requests wn)))) pg) (asked wn)).
  { apply has_status_inv in Hdone. destruct Hdone as (r & Ho & Hok & Hjson & Hst).
    rewrite checkStatus_unfold_eq. unfold checkStatus_unfold, asked, ReportsPage.asked, fetch.
    rewrite Ho in *. simpl in *. rewrite Hok. simpl. unfold read_json. rewrite Hjson. simpl.
    rewrite Hst. reflexivity. }
  cbn [Nat.add]. rewrite Hrun.
  destruct (fetchReports_frame (completed (report_of (backend (length (requests wn)))) pg)
              (asked wn)) as (Hg & Hp & Hrep & Hi & Hreq & Htim).
  rewrite Hg, Hp, Hrep, Hi, Hreq, Htim. unfold asked.
  rewrite (asked_requests backend reportId). unfold ReportsPage.asked, fetch. simpl.
  rewrite Ht, <- app_assoc. simpl. repeat split. lia.
Qed.

End PagePollingOutcomes.

(** ** Reports through services/api.js *)
Section ApiReports.

Import ApiService.

Variable API_BASE_URL : string.
Variable backend : Backend.

(** What [getReports] returns is never falsy: the [results] of the
    body when it has some, else the body itself, else an empty array. *)
Theorem getReports_never_falsy (queryString : string) (w : World) (v : JsVal) :
  fst (getReports API_BASE_URL backend queryString w) = Ok v ->
  truthy v = true
  /\ exists data results,
       json_of (backend (length (requests w))) = Some data
       /\ get_prop data "results" = Ok results
       /\ (truthy results = true -> v = results)
       /\ (truthy results = false -> truthy data = true -> v = data)
       /\ (truthy results = false -> truthy data = false -> v = empty_array).
Proof.
  unfold getReports, fetch_or_fail, fetchWithAuth, fetch, json_of.
  destruct (backend (length (requests w))) as [|r]; simpl; [discriminate|].
  destruct (status r =? 401); simpl; [discriminate|].
  destruct (negb (ok r)); simpl; [discriminate|].
  unfold read_json. destruct (json r) as [data|]; simpl; [|discriminate].
  destruct (get_prop data "results") as [results|] eqn:Hres; simpl; [|discriminate].
  intros H. injection H as <-. split.
  - apply truthy_or_default. reflexivity.
  - exists data, results. split; [reflexivity|]. split; [exact Hres|].
    split; [|split].
    + intros Hr. rewrite (or_truthy results data Hr). apply or_truthy. exact Hr.
    + intros Hr Hd. rewrite (or_falsy results data Hr). apply or_truthy. exact Hd.
    + intros Hr Hd. rewrite (or_falsy results data Hr). apply or_falsy. exact Hd.
Qed.

End ApiReports.

(** ** Headers of config/api.js *)
Section AuthHeaders.

Variable BASE_URL : string.
Variable backend : Backend.

Lemma stored_item_shape (storage : gmap string string) (key : string) :
  getItem storage key = JNull \/ exists t, getItem storage key = JStr t.
Proof. unfold getItem. destruct (storage !! key); eauto. Qed.

(** [getAuthHeaders] always holds the two default headers, and its
    Authorization header is the one [fetchWithAuth] attaches to a
    request made in the same world: both present with the same value,
    or both absent. *)
Theorem getAuthHeaders_agrees_with_fetchWithAuth
  (url method : string) (body : option JsVal) (w : World) :
  exists rq,
    requests (snd (ApiConfig.fetchWithAuth BASE_URL backend url method body w))
    = (requests w ++ [rq])%list
    /\ lookup_field "Authorization" (ApiConfig.getAuthHeaders w)
       = match req_authorization rq with
         | Some value => JStr value
         | None => JUndefined
         end
    /\ lookup_field "Content-Type" (ApiConfig.getAuthHeaders w) = JStr "application/json"
    /\ lookup_field "Accept" (ApiConfig.getAuthHeaders w) = JStr "application/json".
Proof.
  eexists. split.
  { unfold ApiConfig.fetchWithAuth, fetch.
    destruct (backend (length (requests w))) as [|r]; [reflexivity|].
    destruct (status r =? 401); reflexivity. }
  cbn [req_authorization]. unfold ApiConfig.getAuthHeaders.
  set (token := or (getItem (localStorage w) "access_token")
                   (getItem (sessionStorage w) "access_token")).
  assert (Hshape : token = JNull \/ exists t, token = JStr t).
  { subst token. unfold or.
    destruct (stored_item_shape (localStorage w) "access_token") as [->|[t ->]];
      destruct (stored_item_shape (sessionStorage w) "access_token") as [->|[t' ->]];
      simpl; try destruct (negb (String.eqb t "")); eauto. }
  destruct Hshape as [->|[t ->]]; [repeat split|].
  unfold ApiConfig.bearer. destruct (truthy (JStr t)) eqn:Htruthy.
  - repeat split.
  - simpl in Htruthy. apply negb_false_iff, String.eqb_eq in Htruthy. subst t.
    repeat split.
Qed.

End AuthHeaders.

(** ** The properties above at concrete inputs *)

Lemma retry_returns_first_success_witness :
  let backend := scripted [Responded (mkResponse 503 None); NetworkError;
                           Responded (mkResponse 200 (Some (JObj [("id", JNum 7)])))] in
  fst (ApiConfig.fetchWithRetry backend "/reports/7/" "GET" None 0 empty_world)
  = Ok (JObj [("id", JNum 7)])
  /\ length (requests (snd (ApiConfig.fetchWithRetry backend "/reports/7/" "GET" None 0
                              empty_world))) = 3%nat
  /\ timers (snd (ApiConfig.fetchWithRetry backend "/reports/7/" "GET" None 0 empty_world))
     = [1000; 2000].
Proof.
  apply (retry_returns_first_success
           (scripted [Responded (mkResponse 503 None); NetworkError;
                      Responded (mkResponse 200 (Some (JObj [("id", JNum 7)])))])
           "/reports/7/" "GET" None
           (mkResponse 200 (Some (JObj [("id", JNum 7)]))) (JObj [("id", JNum 7)])
           2 empty_world).
  - lia.
  - intros k Hk. destruct k as [|[|k]]; [reflexivity|reflexivity|simpl in Hk; lia].
  - reflexivity.
  - reflexivity.
  - reflexivity.
Defined.

Lemma only_401_clears_session_witness :
  snd (ApiConfig.handleApiResponse (mkResponse 404 None) logged_in) = logged_in
  /\ fst (ApiConfig.fetchWithAuth "http://localhost:8000/api" (always_code 404)
            "/reports/7/" "GET" None logged_in) = Ok (mkResponse 404 None)
  /\ localStorage (snd (ApiConfig.fetchWithAuth "http://localhost:8000/api" (always_code 404)
                          "/reports/7/" "GET" None logged_in)) = localStorage logged_in.
Proof.
  destruct (only_401_clears_session "http://localhost:8000/api" (always_code 404)
              "/reports/7/" "GET" None (mkResponse 404 None) logged_in eq_refl)
    as (Hworld & Hresponse & Hlocal & _).
  - simpl. lia.
  - split; [exact Hworld|]. split; [exact Hresponse|exact Hlocal].
Defined.

Lemma fixed_status_messages_ignore_body_witness :
  fst (ApiConfig.handleApiResponse
         (mkResponse 422 (Some (JObj [("detail", JStr "title: too long")]))) empty_world)
  = fst (ApiConfig.handleApiResponse (mkResponse 422 None) empty_world).
Proof.
  apply (fixed_status_messages_ignore_body 422
           (Some (JObj [("detail", JStr "title: too long")])) None empty_world).
  simpl. tauto.
Defined.

Lemma other_statuses_report_server_detail_witness :
  ApiConfig.handleApiResponse
    (mkResponse 400 (Some (JObj [("detail", JStr "csv_file: required")]))) empty_world
  = (Threw (ErrorMsg (JStr "csv_file: required")), empty_world)
  /\ ApiConfig.handleApiResponse (mkResponse 400 (Some JNull)) empty_world
     = (Threw TypeError, empty_world).
Proof.
  destruct (other_statuses_report_server_detail 400 empty_world) as (Hobj & _ & _ & Hnull).
  - right. lia.
  - simpl. intros H. repeat (destruct H as [H|H]; [discriminate H|]). exact H.
  - split; [exact (Hobj [("detail", JStr "csv_file: required")])|exact Hnull].
Defined.

Lemma fetchWithAuth_request_witness :
  exists rq,
    requests (snd (ApiConfig.fetchWithAuth "http://localhost:8000/api" (always_code 200)
                     "/reports/" "GET" None logged_in)) = [rq]
    /\ req_url rq = "http://localhost:8000/api/reports/"
    /\ req_authorization rq = Some "Bearer local-abc".
Proof.
  destruct (fetchWithAuth_request "http://localhost:8000/api" (always_code 200)
              "/reports/" "GET" None logged_in)
    as (rq & Hreq & _ & _ & Hurl & Hlocal & _).
  exists rq. split; [exact Hreq|]. split; [exact Hurl|].
  apply (Hlocal "local-abc"); [reflexivity|discriminate].
Defined.

Lemma api_service_never_touches_session_witness :
  fst (ApiService.createReport "http://localhost:8000/api" (always_code 401)
         (JObj [("title", JStr "Costs")]) logged_in) = Threw ApiService.token_expired
  /\ href (snd (ApiService.createReport "http://localhost:8000/api" (always_code 401)
                  (JObj [("title", JStr "Costs")]) logged_in)) = href logged_in.
Proof.
  destruct (api_service_never_touches_session "http://localhost:8000/api" (always_code 401)
              "http://localhost:8000/api/reports/" "POST" None logged_in)
    as (_ & _ & _ & _ & _ & H401).
  destruct (H401 (mkResponse 401 None) (JObj [("title", JStr "Costs")])
              (JObj [ ("title", JStr "Costs"); ("description", JStr "");
                      ("report_type", JUndefined); ("csv_file", JUndefined);
                      ("configuration", all_flags_true) ])
              eq_refl eq_refl eq_refl) as (_ & Hthrown & Hhref).
  split; [exact Hthrown|exact Hhref].
Defined.

Lemma validate_accepts_exactly_witness :
  exists v,
    ReportsService.validateReportConfig
      (JObj [("title", JStr "Costs Q3"); ("type", JStr "cost"); ("csvFileId", JNum 12)])
    = Ok v
    /\ (ReportsService.isValid v = true <-> ReportsService.errors v = []).
Proof.
  destruct (validate_accepts_exactly
              [("title", JStr "Costs Q3"); ("type", JStr "cost"); ("csvFileId", JNum 12)])
    as (v & Hv & Hiff & _).
  - left. exists "Costs Q3". reflexivity.
  - exists v. split; [exact Hv|exact Hiff].
Defined.

Lemma extract_throws_only_on_nullish_witness :
  ReportsService.extractDashboardMetrics JNull (JStr "security") = Threw TypeError
  /\ exists m, ReportsService.extractDashboardMetrics (JStr "n/a") (JStr "cost")
               = Ok (JObj m).
Proof.
  split.
  - apply (extract_throws_only_on_nullish JNull (JStr "security")). right. reflexivity.
  - apply (extract_throws_only_on_nullish (JStr "n/a") (JStr "cost")); discriminate.
Defined.

Lemma format_never_throws_witness :
  exists out,
    ReportsService.formatAnalysisData "2025-01-01T00:00:00.000Z"
      (JObj [("security_score", JNum 80)]) (JStr "security") = Ok out
    /\ exists m, out = JObj m /\ truthy (lookup_field "dashboard_metrics" m) = true.
Proof.
  destruct (format_never_throws "2025-01-01T00:00:00.000Z"
              (JObj [("security_score", JNum 80)]) (JStr "security"))
    as (out & Hout & _ & Hobj & _).
  exists out. split; [exact Hout|].
  destruct (Hobj [("security_score", JNum 80)] eq_refl) as (m & Hm & Hdm & _).
  exists m. split; [exact Hm|exact Hdm].
Defined.

Lemma format_keeps_payload_witness :
  exists m,
    ReportsService.formatAnalysisData "2025-01-01T00:00:00.000Z"
      (JObj [("reportType", JStr "cost"); ("security_score", JNum 80)]) (JStr "security")
    = Ok (JObj m)
    /\ lookup_field "reportType" m = JStr "cost"
    /\ lookup_field "generatedAt" m = JStr "2025-01-01T00:00:00.000Z".
Proof.
  destruct (format_keeps_payload "2025-01-01T00:00:00.000Z"
              [("reportType", JStr "cost"); ("security_score", JNum 80)] (JStr "security"))
    as (m & Hm & Hkept & _ & Hnow).
  exists m. split; [exact Hm|]. split.
  - apply (Hkept "reportType"); [discriminate|reflexivity].
  - apply Hnow. reflexivity.
Defined.

Lemma getReports_ignores_page_size_witness :
  metric (ReportsService.getReportsQuery (JObj [("page_size", JNum 5)])) "page_size"
  = JNum 20.
Proof.
  apply (getReports_ignores_page_size [] (JNum 5)); reflexivity.
Defined.

Lemma handleResponse_rejects_non_2xx_witness :
  ReportsService.handleResponse (mkResponse 500 (Some JNull)) = Threw TypeError
  /\ ReportsService.handleResponse (mkResponse 500 None)
     = Threw (ErrorMsg (JStr "HTTP error! status: 500"))
  /\ ReportsService.handleResponse
       (mkResponse 409 (Some (JObj [("message", JStr "report is locked")])))
     = Threw (ErrorMsg (JStr "report is locked")).
Proof.
  split; [|split].
  - apply (handleResponse_rejects_non_2xx (mkResponse 500 (Some JNull))); reflexivity.
  - apply (handleResponse_rejects_non_2xx (mkResponse 500 None)); reflexivity.
  - destruct (handleResponse_rejects_non_2xx
                (mkResponse 409 (Some (JObj [("message", JStr "report is locked")])))
                eq_refl) as (_ & _ & _ & Hobj).
    exact (Hobj [("message", JStr "report is locked")] eq_refl).
Defined.

Lemma upload_settles_once_witness :
  ReportsService.uploadCSVFile_settles
    (ReportsService.XhrLoad 201 (Some (JObj [("id", JNum 12)])))
  = Resolved (JObj [("id", JNum 12)])
  /\ ReportsService.uploadCSVFile_settles (ReportsService.XhrLoad 413 (Some JNull))
     = Rejected (ErrorMsg (JStr "Upload failed with status 413")).
Proof.
  split.
  - apply (upload_settles_once (ReportsService.XhrLoad 201 (Some (JObj [("id", JNum 12)])))).
    exists 201. split; [reflexivity|lia].
  - destruct (upload_settles_once (ReportsService.XhrLoad 413 (Some JNull)))
      as (_ & Hother & _).
    apply (Hother 413 (Some JNull) eq_refl); [lia|]. right. reflexivity.
Defined.

Lemma createReport_variants_agree_iff_witness :
  metric (ReportsService.createReportBody (JObj [("includeGraphics", JBool false)]))
         "configuration"
  = JObj [ ("include_graphics", JBool false); ("include_detailed_tables", JUndefined);
           ("include_recommendations", JUndefined) ].
Proof.
  apply (createReport_variants_agree_iff [("includeGraphics", JBool false)]); reflexivity.
Defined.

Lemma page_poll_stalls_on_http_error_witness :
  let pg := ReportsPage.mkPage true 40 JNull true empty_array in
  let backend := scripted [report_with "processing"; Responded (mkResponse 502 None)] in
  fst (ReportsPage.pollReportStatus backend "7" pg empty_world) = pg
  /\ length (requests (snd (ReportsPage.pollReportStatus backend "7" pg empty_world)))
     = 2%nat
  /\ timers (snd (ReportsPage.pollReportStatus backend "7" pg empty_world)) = [3000; 5000].
Proof.
  apply (page_poll_stalls_on_http_error
           (scripted [report_with "processing"; Responded (mkResponse 502 None)]) "7" 1
           (mkResponse 502 None) (ReportsPage.mkPage true 40 JNull true empty_array)
           empty_world).
  - unfold ReportsPage.maxAttempts. lia.
  - intros k Hk. destruct k as [|k]; [reflexivity|simpl in Hk; lia].
  - reflexivity.
  - reflexivity.
Defined.

Lemma page_poll_completes_witness :
  let pg := ReportsPage.mkPage true 40 JNull true empty_array in
  let backend := scripted [report_with "processing"; report_with "completed"] in
  let res := ReportsPage.pollReportStatus backend "7" pg empty_world in
  ReportsPage.isGenerating (fst res) = false
  /\ ReportsPage.generationProgress (fst res) = 100
  /\ ReportsPage.generatedReport (fst res) = report_of (backend 1%nat)
  /\ ReportsPage.progressInterval (fst res) = false
  /\ length (requests (snd res)) = 3%nat
  /\ timers (snd res) = [3000; 5000].
Proof.
  apply (page_poll_completes
           (scripted [report_with "processing"; report_with "completed"]) "7" 1
           (ReportsPage.mkPage true 40 JNull true empty_array) empty_world).
  - unfold ReportsPage.maxAttempts. lia.
  - intros k Hk. destruct k as [|k]; [reflexivity|simpl in Hk; lia].
  - reflexivity.
Defined.

Lemma getReports_never_falsy_witness :
  truthy (JObj [("count", JNum 0); ("results", JNull)]) = true
  /\ exists data results,
       json_of (always_code_body 200 (JObj [("count", JNum 0); ("results", JNull)]) 0%nat)
       = Some data
       /\ get_prop data "results" = Ok results
       /\ (truthy results = true -> JObj [("count", JNum 0); ("results", JNull)] = results)
       /\ (truthy results = false -> truthy data = true ->
           JObj [("count", JNum 0); ("results", JNull)] = data)
       /\ (truthy results = false -> truthy data = false ->
           JObj [("count", JNum 0); ("results", JNull)] = empty_array).
Proof.
  split; [reflexivity|].
  apply (getReports_never_falsy "http://localhost:8000/api"
           (always_code_body 200 (JObj [("count", JNum 0); ("results", JNull)]))
           "page=1" empty_world (JObj [("count", JNum 0); ("results", JNull)])).
  reflexivity.
Defined.

(** ** Submission and validation *)
Section SubmissionGate.

Variable baseURL : string.
Variable backend : Backend.

(** Neither [createReport] validates what it sends: for every object,
    whatever [validateReportConfig] says of it, one request is made
    with the method POST; for [null] and [undefined] a TypeError is
    thrown and no request is made. *)
Theorem createReport_sends_unvalidated (reportData : JsVal) (w : World) :
  ((reportData = JNull \/ reportData = JUndefined) ->
   ReportsService.createReport baseURL backend reportData w = (Threw TypeError, w)
   /\ ApiService.createReport baseURL backend reportData w = (Threw TypeError, w))
  /\ (forall fields, reportData = JObj fields ->
        exists rq rq',
          requests (snd (ReportsService.createReport baseURL backend reportData w))
          = (requests w ++ [rq])%list
          /\ requests (snd (ApiService.createReport baseURL backend reportData w))
             = (requests w ++ [rq'])%list
          /\ req_method rq = "POST" /\ req_method rq' = "POST"
          /\ req_url rq = baseURL +:+ "/reports/" /\ req_url rq' = baseURL +:+ "/reports/").
Proof.
  split.
  - intros [->| ->]; split; reflexivity.
  - intros fields ->. eexists. eexists.
    unfold ReportsService.createReport, ReportsService.request_json,
      ApiService.createReport, ApiService.fetchWithAuth, fetch. simpl.
    destruct (backend (length (requests w))) as [|r]; simpl.
    + repeat split.
    + destruct (status r =? 401); simpl; [repeat split|].
      destruct (negb (ok r)); simpl; repeat split.
Qed.

End SubmissionGate.

Lemma createReport_sends_unvalidated_witness :
  ReportsService.validateReportConfig (JObj [("title", JStr "")])
  = Ok (ReportsService.mkValidation false
          [ReportsService.title_error; ReportsService.type_error; ReportsService.file_error])
  /\ exists rq,
       requests (snd (ReportsService.createReport "/api" (always_code 400)
                        (JObj [("title", JStr "")]) empty_world)) = [rq]
       /\ req_method rq = "POST".
Proof.
  split; [reflexivity|].
  destruct (createReport_sends_unvalidated "/api" (always_code 400)
              (JObj [("title", JStr "")]) empty_world) as (_ & Hsent).
  destruct (Hsent [("title", JStr "")] eq_refl) as (rq & rq' & Hreq & _ & Hmethod & _).
  exists rq. split; [exact Hreq|exact Hmethod].
Defined.
